(** * Feed reconciliation and batching of the seller-apis scripts

    A shallow embedding of the data-transforming functions of
    [seller.py] (Ozon) and [market.py] (Yandex Market):
    [price_conversion], [divide], [create_stocks], [create_prices] and the
    batch submission loops of [upload_stocks], [upload_prices] and [main].

    Conventions of the embedding.
    - A Python [str] is a [string] holding its UTF-8 bytes.  The characters
      the code inspects (['.'], the digits, ['>'], ['_'], the signs) are
      ASCII, and no byte of a multi-byte UTF-8 sequence is below 128, so
      splitting on ['.'] and deleting non-digits act on the bytes exactly
      as they act on the code points.
    - A dictionary read with [.get] is a [gmap string PyVal]; a missing key
      reads as [PNone], as [dict.get] does.
    - A raised exception is the [Raise] outcome.  [create_stocks] mutates
      the list it is given, so it returns the final contents of that list
      next to its outcome.
    - The clock read by [market.create_stocks] is an explicit argument. *)

From Stdlib Require Import ZArith Ascii String List DecimalString DecimalZ Lia.
From stdpp Require Import base decidable option list strings gmap.

Local Open Scope Z_scope.

(** ** Python values, exceptions, outcomes *)

Inductive exn : Type :=
  | ValueError
  | TypeError
  | AttributeError
  | IndexError.

Inductive outcome (A : Type) : Type :=
  | Ok (a : A)
  | Raise (e : exn).
Arguments Ok {A} a.
Arguments Raise {A} e.

(** The values a spreadsheet cell or a JSON field holds here: nothing, an
    integer or a string.  Cells read as floating-point numbers are not
    modelled. *)
Inductive PyVal : Type :=
  | PNone
  | PInt (z : Z)
  | PStr (s : string).

#[global] Instance exn_eq_dec : EqDecision exn.
Proof. solve_decision. Defined.
#[global] Instance PyVal_eq_dec : EqDecision PyVal.
Proof. solve_decision. Defined.

(** ** [str] and [int] *)

Module Py.

Definition is_digit (c : ascii) : bool :=
  let n := N_of_ascii c in ((48 <=? n) && (n <=? 57))%N.

Definition digit_val (c : ascii) : Z := Z.of_N (N_of_ascii c) - 48.

(** The white space [int] skips around a number: tab, line feed, vertical
    tab, form feed, carriage return and space. *)
Definition is_space (c : ascii) : bool :=
  let n := N_of_ascii c in
  (((9 <=? n) && (n <=? 13)) || (n =? 32))%N.

Fixpoint lstrip (cs : list ascii) : list ascii :=
  match cs with
  | c :: cs' => if is_space c then lstrip cs' else cs
  | [] => []
  end.

Definition strip (cs : list ascii) : list ascii :=
  rev (lstrip (rev (lstrip cs))).

(** Decimal digits with single underscores between them; [us] records that
    the previous character was an underscore. *)
Fixpoint parse_digits (acc : Z) (us : bool) (cs : list ascii) : option Z :=
  match cs with
  | [] => if us then None else Some acc
  | c :: cs' =>
      if is_digit c then parse_digits (10 * acc + digit_val c) false cs'
      else if Ascii.eqb c "_" then
        if us then None else parse_digits acc true cs'
      else None
  end.

Definition digits_value (cs : list ascii) : option Z :=
  match cs with
  | [] => None
  | c :: _ => if is_digit c then parse_digits 0 false cs else None
  end.

(** [int(s)] for a string [s], base 10: surrounding white space, an
    optional sign, digits.  [None] stands for the [ValueError].  This is
    [int] on strings of ASCII characters that stay within the interpreter's
    limit on the number of digits (4300 unless configured otherwise).
    Outside them it is not: a digit or a space that is not ASCII is
    rejected here and accepted by [int], and a longer number is converted
    here and rejected by [int] under the default limit.  The statements
    below that say a call returns, or say where it raises, are made for
    cells inside these bounds ([plain]); the others hold of any run that
    returns. *)
Definition int_of_str (s : string) : option Z :=
  match strip (list_ascii_of_string s) with
  | "+"%char :: ds => digits_value ds
  | "-"%char :: ds => Z.opp <$> digits_value ds
  | ds => digits_value ds
  end.

(** [str(z)] for an integer [z]. *)
Definition str_of_int (z : Z) : string :=
  NilZero.string_of_int (Z.to_int z).

(** [str(v)]. *)
Definition str (v : PyVal) : string :=
  match v with
  | PNone => "None"
  | PInt z => str_of_int z
  | PStr s => s
  end.

(** [int(v)]. *)
Definition int (v : PyVal) : outcome Z :=
  match v with
  | PNone => Raise TypeError
  | PInt z => Ok z
  | PStr s =>
      match int_of_str s with
      | Some z => Ok z
      | None => Raise ValueError
      end
  end.

(** [s.split(sep)] for a one-character separator. *)
Fixpoint split (sep : ascii) (s : string) : list string :=
  match s with
  | EmptyString => [EmptyString]
  | String c s' =>
      if Ascii.eqb c sep then EmptyString :: split sep s'
      else match split sep s' with
           | h :: t => String c h :: t
           | [] => [String c EmptyString]
           end
  end.

(** [re.sub("[^0-9]", "", s)]: every character outside ['0'..'9'] is
    replaced by the empty string. *)
Fixpoint re_sub_non_digit (s : string) : string :=
  match s with
  | EmptyString => EmptyString
  | String c s' =>
      if is_digit c then String c (re_sub_non_digit s')
      else re_sub_non_digit s'
  end.

(** [range(start, stop, step)] as the list of its elements; a zero step
    is a [ValueError]. *)
Definition range_len (start stop step : Z) : Z :=
  (if 0 <? step then
     if start <? stop then (stop - start - 1) / step + 1 else 0
   else
     if stop <? start then (start - stop - 1) / (- step) + 1 else 0)%Z.

Definition range (start stop step : Z) : outcome (list Z) :=
  if (step =? 0)%Z then Raise ValueError
  else Ok ((λ k : nat, start + Z.of_nat k * step)%Z <$>
             seq 0 (Z.to_nat (range_len start stop step))).

(** [lst[i:j]]: negative bounds count from the end, and both are clamped
    to the list. *)
Definition clamp (len i : Z) : nat :=
  Z.to_nat (if (i <? 0)%Z then Z.max 0 (i + len) else Z.min i len).

Definition slice {A} (lst : list A) (i j : Z) : list A :=
  let len := Z.of_nat (length lst) in
  let lo := clamp len i in
  let hi := clamp len j in
  take (hi - lo)%nat (drop lo lst).

(** [x in lst] and [lst.remove(x)] on a list of strings. *)
Definition contains (x : string) (lst : list string) : bool :=
  bool_decide (x ∈ lst).

Fixpoint remove_first (x : string) (lst : list string) : option (list string) :=
  match lst with
  | [] => None
  | y :: lst' =>
      if decide (x = y) then Some lst'
      else cons y <$> remove_first x lst'
  end.

Definition remove (x : string) (lst : list string) : outcome (list string) :=
  match remove_first x lst with
  | Some lst' => Ok lst'
  | None => Raise ValueError
  end.

End Py.

(** A feed row, [watch] in the source: the spreadsheet columns by header. *)
Abbreviation watch := (gmap string PyVal).

(** [watch.get(key)]. *)
Definition get (w : watch) (key : string) : PyVal := default PNone (w !! key).

(** [str(watch.get("Код"))], the join key of a feed row. *)
Definition code (w : watch) : string := Py.str (get w "Код").

(** ** seller.py *)

Module Seller.

Record StockItem : Type := mkStock { offer_id : string; stock : Z }.

Record PriceItem : Type := mkPrice {
  auto_action_enabled : string;
  currency_code : string;
  price_offer_id : string;
  old_price : string;
  price : string
}.

(** The requests a run sends, in order.  Every request is taken to be
    answered with a success status. *)
Inductive api_call : Type :=
  | update_stocks (stocks : list StockItem)
  | update_price (prices : list PriceItem).

(** Lines 227-233: the quantity rule. *)
Definition stock_of (w : watch) : outcome Z :=
  let count := Py.str (get w "Количество") in
  if decide (count = ">10") then Ok 100
  else if decide (count = "1") then Ok 0
  else Py.int (get w "Количество").

(** Lines 225-235: the first loop of [create_stocks], with the list
    [stocks] built so far and the current contents of [offer_ids]. *)
Fixpoint stocks_loop (watch_remnants : list watch) (stocks : list StockItem)
    (offer_ids : list string) : outcome (list StockItem) * list string :=
  match watch_remnants with
  | [] => (Ok stocks, offer_ids)
  | w :: rest =>
      if Py.contains (code w) offer_ids then
        match stock_of w with
        | Raise e => (Raise e, offer_ids)
        | Ok n =>
            let stocks := stocks ++ [mkStock (code w) n] in
            match Py.remove (code w) offer_ids with
            | Raise e => (Raise e, offer_ids)
            | Ok offer_ids => stocks_loop rest stocks offer_ids
            end
        end
      else stocks_loop rest stocks offer_ids
  end.

(** [create_stocks]: its outcome, and the list [offer_ids] as the call
    leaves it. *)
Definition create_stocks (watch_remnants : list watch) (offer_ids : list string)
    : outcome (list StockItem) * list string :=
  match stocks_loop watch_remnants [] offer_ids with
  | (Ok stocks, offer_ids) =>
      (Ok (stocks ++ ((λ offer_id, mkStock offer_id 0) <$> offer_ids)), offer_ids)
  | (Raise e, offer_ids) => (Raise e, offer_ids)
  end.

(** [price_conversion]: [re.sub("[^0-9]", "", price.split(".")[0])].
    [split] never returns an empty list, so index [0] is always there. *)
Definition price_conversion (price : string) : string :=
  Py.re_sub_non_digit (nth 0 (Py.split "." price) EmptyString).

(** [price_conversion(watch.get("Цена"))]: only a [str] has [split]. *)
Definition price_conversion_of (v : PyVal) : outcome string :=
  match v with
  | PStr s => Ok (price_conversion s)
  | _ => Raise AttributeError
  end.

Fixpoint prices_loop (watch_remnants : list watch) (prices : list PriceItem)
    (offer_ids : list string) : outcome (list PriceItem) :=
  match watch_remnants with
  | [] => Ok prices
  | w :: rest =>
      if Py.contains (code w) offer_ids then
        match price_conversion_of (get w "Цена") with
        | Raise e => Raise e
        | Ok p =>
            prices_loop rest
              (prices ++ [mkPrice "UNKNOWN" "RUB" (code w) "0" p]) offer_ids
        end
      else prices_loop rest prices offer_ids
  end.

Definition create_prices (watch_remnants : list watch) (offer_ids : list string)
    : outcome (list PriceItem) :=
  prices_loop watch_remnants [] offer_ids.

(** [divide]: the chunks the generator yields when it is run to its end,
    as every caller does with [list(divide(...))]. *)
Definition divide {A} (lst : list A) (n : Z) : outcome (list (list A)) :=
  match Py.range 0 (Z.of_nat (length lst)) n with
  | Ok r => Ok ((λ i, Py.slice lst i (i + n)) <$> r)
  | Raise e => Raise e
  end.

(** [upload_prices], given the list [get_offer_ids] returned: the value
    returned and the requests sent. *)
Definition upload_prices (watch_remnants : list watch) (offer_ids : list string)
    : outcome (list PriceItem) * list api_call :=
  match create_prices watch_remnants offer_ids with
  | Raise e => (Raise e, [])
  | Ok prices =>
      match divide prices 1000 with
      | Raise e => (Raise e, [])
      | Ok chunks => (Ok prices, update_price <$> chunks)
      end
  end.

(** [upload_stocks], given the list [get_offer_ids] returned. *)
Definition upload_stocks (watch_remnants : list watch) (offer_ids : list string)
    : outcome (list StockItem * list StockItem) * list api_call :=
  match create_stocks watch_remnants offer_ids with
  | (Raise e, _) => (Raise e, [])
  | (Ok stocks, _) =>
      match divide stocks 100 with
      | Raise e => (Raise e, [])
      | Ok chunks =>
          let not_empty := filter (λ s, stock s ≠ 0) stocks in
          (Ok (not_empty, stocks), update_stocks <$> chunks)
      end
  end.

(** [main], given the list [get_offer_ids] returned and the rows
    [download_stock] returned: the requests sent.  The [except] clauses
    print the error and end the run. *)
Definition main (watch_remnants : list watch) (offer_ids : list string)
    : list api_call :=
  match create_stocks watch_remnants offer_ids with
  | (Raise _, _) => []
  | (Ok stocks, offer_ids) =>
      match divide stocks 100 with
      | Raise _ => []
      | Ok stock_chunks =>
          let sent := update_stocks <$> stock_chunks in
          match create_prices watch_remnants offer_ids with
          | Raise _ => sent
          | Ok prices =>
              match divide prices 900 with
              | Raise _ => sent
              | Ok price_chunks => sent ++ (update_price <$> price_chunks)
              end
          end
      end
  end.

End Seller.

(** ** market.py *)

Module Market.

Record Item : Type := mkItem { count : Z; type : string; updatedAt : string }.

Record StockItem : Type := mkStock {
  sku : string;
  warehouseId : string;
  items : list Item
}.

Record PriceValue : Type := mkValue { value : Z; currencyId : string }.

Record PriceItem : Type := mkPrice { id : string; price : PriceValue }.

Inductive api_call : Type :=
  | update_stocks (stocks : list StockItem)
  | update_price (prices : list PriceItem).

(** Lines 196-202: the quantity rule, as in seller.py. *)
Definition stock_of (w : watch) : outcome Z :=
  let count := Py.str (get w "Количество") in
  if decide (count = ">10") then Ok 100
  else if decide (count = "1") then Ok 0
  else Py.int (get w "Количество").

Definition entry (sku warehouse_id : string) (n : Z) (date : string) : StockItem :=
  mkStock sku warehouse_id [mkItem n "FIT" date].

(** Lines 194-216; [date] is the string line 193 builds from the clock. *)
Fixpoint stocks_loop (watch_remnants : list watch) (stocks : list StockItem)
    (offer_ids : list string) (warehouse_id date : string)
    : outcome (list StockItem) * list string :=
  match watch_remnants with
  | [] => (Ok stocks, offer_ids)
  | w :: rest =>
      if Py.contains (code w) offer_ids then
        match stock_of w with
        | Raise e => (Raise e, offer_ids)
        | Ok n =>
            let stocks := stocks ++ [entry (code w) warehouse_id n date] in
            match Py.remove (code w) offer_ids with
            | Raise e => (Raise e, offer_ids)
            | Ok offer_ids => stocks_loop rest stocks offer_ids warehouse_id date
            end
        end
      else stocks_loop rest stocks offer_ids warehouse_id date
  end.

Definition create_stocks (watch_remnants : list watch) (offer_ids : list string)
    (warehouse_id date : string) : outcome (list StockItem) * list string :=
  match stocks_loop watch_remnants [] offer_ids warehouse_id date with
  | (Ok stocks, offer_ids) =>
      (Ok (stocks ++ ((λ offer_id, entry offer_id warehouse_id 0 date) <$> offer_ids)),
       offer_ids)
  | (Raise e, offer_ids) => (Raise e, offer_ids)
  end.

(** [int(price_conversion(watch.get("Цена")))]. *)
Definition price_value_of (v : PyVal) : outcome Z :=
  match Seller.price_conversion_of v with
  | Raise e => Raise e
  | Ok s => Py.int (PStr s)
  end.

Fixpoint prices_loop (watch_remnants : list watch) (prices : list PriceItem)
    (offer_ids : list string) : outcome (list PriceItem) :=
  match watch_remnants with
  | [] => Ok prices
  | w :: rest =>
      if Py.contains (code w) offer_ids then
        match price_value_of (get w "Цена") with
        | Raise e => Raise e
        | Ok n =>
            prices_loop rest
              (prices ++ [mkPrice (code w) (mkValue n "RUR")]) offer_ids
        end
      else prices_loop rest prices offer_ids
  end.

Definition create_prices (watch_remnants : list watch) (offer_ids : list string)
    : outcome (list PriceItem) :=
  prices_loop watch_remnants [] offer_ids.

Definition upload_prices (watch_remnants : list watch) (offer_ids : list string)
    : outcome (list PriceItem) * list api_call :=
  match create_prices watch_remnants offer_ids with
  | Raise e => (Raise e, [])
  | Ok prices =>
      match Seller.divide prices 500 with
      | Raise e => (Raise e, [])
      | Ok chunks => (Ok prices, update_price <$> chunks)
      end
  end.

Definition upload_stocks (watch_remnants : list watch) (offer_ids : list string)
    (warehouse_id date : string)
    : outcome (list StockItem * list StockItem) * list api_call :=
  match create_stocks watch_remnants offer_ids warehouse_id date with
  | (Raise e, _) => (Raise e, [])
  | (Ok stocks, _) =>
      match Seller.divide stocks 2000 with
      | Raise e => (Raise e, [])
      | Ok chunks =>
          (* [items] always holds the one entry [entry] puts there *)
          let not_empty :=
            filter (λ s, (count <$> items s) !! 0%nat ≠ Some 0) stocks in
          (Ok (not_empty, stocks), update_stocks <$> chunks)
      end
  end.

(** The stock half of one campaign in [main] (lines 320-324 and 329-333).
    The call [upload_prices(...)] that follows it is not awaited: it builds
    a coroutine object and sends nothing. *)
Definition main_campaign (watch_remnants : list watch) (offer_ids : list string)
    (warehouse_id date : string) : outcome unit * list api_call :=
  match create_stocks watch_remnants offer_ids warehouse_id date with
  | (Raise e, _) => (Raise e, [])
  | (Ok stocks, _) =>
      match Seller.divide stocks 2000 with
      | Raise e => (Raise e, [])
      | Ok chunks => (Ok (), update_stocks <$> chunks)
      end
  end.

(** [main]: the FBS campaign, then the DBS campaign, inside one [try]. *)
Definition main (watch_remnants : list watch)
    (fbs_offer_ids dbs_offer_ids : list string)
    (warehouse_fbs_id warehouse_dbs_id date_fbs date_dbs : string)
    : list api_call :=
  match main_campaign watch_remnants fbs_offer_ids warehouse_fbs_id date_fbs with
  | (Raise _, sent) => sent
  | (Ok _, sent) =>
      sent ++ (main_campaign watch_remnants dbs_offer_ids warehouse_dbs_id date_dbs).2
  end.

End Market.

(** ** The Price Normalizer as the specification words it *)

Module Spec.

(** The substring before the first decimal point, all of [s] when there is
    none. *)
Fixpoint before_first_dot (s : string) : string :=
  match s with
  | EmptyString => EmptyString
  | String c s' =>
      if Ascii.eqb c "." then EmptyString else String c (before_first_dot s')
  end.

Definition ascii_digit (c : ascii) : Prop :=
  c ∈ ["0"; "1"; "2"; "3"; "4"; "5"; "6"; "7"; "8"; "9"]%char.

#[global] Instance ascii_digit_dec c : Decision (ascii_digit c).
Proof. unfold ascii_digit. apply _. Defined.

(** Delete every character that is not an ASCII digit. *)
Definition keep_digits (s : string) : string :=
  string_of_list_ascii (filter ascii_digit (list_ascii_of_string s)).

Definition normalize_price (s : string) : string :=
  keep_digits (before_first_dot s).

End Spec.

(** The scenario of the specification: catalog A, B, C and a feed with
    A (more than ten) and B (five). *)
Definition row (c q p : string) : watch :=
  {[ "Код" := PStr c; "Количество" := PStr q; "Цена" := PStr p ]}.

Definition scenario_feed : list watch :=
  [row "A" ">10" "100.00"; row "B" "5" "50.00"].


(** ** Vocabulary of the statements *)

Definition outcome_map {A B} (f : A → B) (o : outcome A) : outcome B :=
  match o with
  | Ok a => Ok (f a)
  | Raise e => Raise e
  end.

(** The join keys of the feed, in feed order. *)
Definition codes (feed : list watch) : list string := code <$> feed.

(** A cell [str] prints: anything but an integer of more than 4300
    digits. *)
Definition printable (v : PyVal) : bool :=
  match v with
  | PInt z => bool_decide (Z.abs z < 10 ^ 4300)
  | _ => true
  end.

(** A cell on which [Py.str] and [Py.int] are the interpreter's [str] and
    [int]: nothing, an integer [str] prints, or a string of at most 4300
    ASCII characters. *)
Definition plain (v : PyVal) : bool :=
  match v with
  | PStr s =>
      bool_decide (Forall (λ c, (N_of_ascii c < 128)%N) (list_ascii_of_string s)) &&
      bool_decide (String.length s ≤ 4300)%nat
  | _ => printable v
  end.

(** A feed whose code cells [str] prints and whose quantity cells are
    [plain]. *)
Definition feed_plain (feed : list watch) : Prop :=
  Forall (λ w, printable (get w "Код") = true ∧
               plain (get w "Количество") = true) feed.

(** A quantity cell the rule of [create_stocks] accepts: a [plain] cell
    that is one of the two tokens or that [int] converts. *)
Definition quantity_wf (q : PyVal) : bool :=
  plain q &&
  (bool_decide (Py.str q = ">10") || bool_decide (Py.str q = "1") ||
   match Py.int q with Ok _ => true | Raise _ => false end).

(** [str] prints the code of every feed row, and every row that names a
    listed offer has such a quantity. *)
Definition feed_wf (offer_ids : list string) (feed : list watch) : Prop :=
  Forall (λ w, printable (get w "Код") = true ∧
               (code w ∈ offer_ids → quantity_wf (get w "Количество") = true)) feed.

(** A price cell that is a string with at least one digit before its
    first decimal point. *)
Definition price_wf (p : PyVal) : bool :=
  match p with
  | PStr s => bool_decide (Seller.price_conversion s ≠ "")
  | _ => false
  end.

Definition prices_wf (offer_ids : list string) (feed : list watch) : Prop :=
  Forall (λ w, code w ∈ offer_ids → price_wf (get w "Цена") = true) feed.

(** [str] prints the code of every feed row, and every price string of a
    row that names a listed offer has at most 4300 characters, so that the
    digits [price_conversion] keeps stay within the limit of [int]. *)
Definition short_price (p : PyVal) : bool :=
  match p with
  | PStr s => bool_decide (String.length s ≤ 4300)%nat
  | _ => true
  end.

Definition prices_short (offer_ids : list string) (feed : list watch) : Prop :=
  Forall (λ w, printable (get w "Код") = true ∧
               (code w ∈ offer_ids → short_price (get w "Цена") = true)) feed.

(** The market.py entry that carries the same offer and quantity as a
    seller.py entry. *)
Definition to_market (warehouse_id date : string) (s : Seller.StockItem)
    : Market.StockItem :=
  Market.entry (Seller.offer_id s) warehouse_id (Seller.stock s) date.

(** A market.py entry without its [updatedAt] stamps. *)
Definition erase_date (s : Market.StockItem) : string * string * list (Z * string) :=
  (Market.sku s, Market.warehouseId s,
   (λ it, (Market.count it, Market.type it)) <$> Market.items s).

(** [chunks] cuts [lst] into batches of [n]: every batch holds between 1
    and [n] entries, every batch but the last holds [n], and together
    they are [lst]. *)
Definition batches_of {A} (n : nat) (lst : list A) (chunks : list (list A)) : Prop :=
  concat chunks = lst ∧
  ∀ (i : nat) c, chunks !! i = Some c →
    (1 ≤ length c ≤ n)%nat ∧ (S i < length chunks → length c = n)%nat.

(** The sizes of the stock and of the price requests of a run. *)
Definition seller_stock_sizes (sent : list Seller.api_call) : list nat :=
  omap (λ c, match c with
             | Seller.update_stocks b => Some (length b)
             | _ => None
             end) sent.

Definition seller_price_sizes (sent : list Seller.api_call) : list nat :=
  omap (λ c, match c with
             | Seller.update_price b => Some (length b)
             | _ => None
             end) sent.

Definition market_stock_sizes (sent : list Market.api_call) : list nat :=
  omap (λ c, match c with
             | Market.update_stocks b => Some (length b)
             | _ => None
             end) sent.

Definition market_price_sizes (sent : list Market.api_call) : list nat :=
  omap (λ c, match c with
             | Market.update_price b => Some (length b)
             | _ => None
             end) sent.

(** What a price entry owes to the listed feed row it was made from: the
    row's code, and the normalized price, as a digit string in seller.py
    and as the integer the digits spell in market.py. *)
Definition seller_made (offer_ids : list string) (w : watch)
    (p : Seller.PriceItem) : Prop :=
  code w ∈ offer_ids ∧ ∃ s, get w "Цена" = PStr s ∧
    p = Seller.mkPrice "UNKNOWN" "RUB" (code w) "0" (Seller.price_conversion s).

Definition market_made (offer_ids : list string) (w : watch)
    (p : Market.PriceItem) : Prop :=
  code w ∈ offer_ids ∧ ∃ s n, get w "Цена" = PStr s ∧
    Py.int_of_str (Seller.price_conversion s) = Some n ∧
    p = Market.mkPrice (code w) (Market.mkValue n "RUR").

(** What a seller.py price entry says of its row when the row's price
    has a digit before its first decimal point: nothing is said of the
    amount of a row whose price has none. *)
Definition seller_priced (offer_ids : list string) (w : watch)
    (p : Seller.PriceItem) : Prop :=
  code w ∈ offer_ids ∧ Seller.price_offer_id p = code w ∧
  ∃ s, get w "Цена" = PStr s ∧
    (Seller.price_conversion s ≠ "" → Seller.price p = Seller.price_conversion s).

(** A catalog of [n] offers "0", "1", ... and a feed with one row for each
    of them. *)
Definition catalog_of (n : nat) : list string :=
  (λ k, Py.str_of_int (Z.of_nat k)) <$> seq 0 n.

Definition feed_of (n : nat) : list watch :=
  (λ k, row (Py.str_of_int (Z.of_nat k)) "5" "10.00") <$> seq 0 n.

(** ** The catalog fetchers *)

(** [get_offer_ids] of seller.py. The request [get_product_list] is an
    argument: it maps the cursor [last_id] to the [result] object of the
    answer, or raises. Of [result] the loop reads [items], [total] and
    [last_id], and of every item its [offer_id]. The [while True] loop is
    run for at most [fuel] requests; [None] says it is still running. *)
Module SellerCatalog.

Record Product : Type := mkProduct { offer_id : string }.

Record Result : Type := mkResult {
  items : list Product;
  total : Z;
  last_id : string
}.

Fixpoint fetch_loop (get_product_list : string → outcome Result) (fuel : nat)
    (last_id : string) (product_list : list Product)
    : option (outcome (list Product)) :=
  match fuel with
  | O => None
  | S fuel =>
      match get_product_list last_id with
      | Raise e => Some (Raise e)
      | Ok some_prod =>
          let product_list := product_list ++ items some_prod in
          if (total some_prod =? Z.of_nat (length product_list))%Z
          then Some (Ok product_list)
          else fetch_loop get_product_list fuel
                 (SellerCatalog.last_id some_prod) product_list
      end
  end.

Definition get_offer_ids (get_product_list : string → outcome Result)
    (fuel : nat) : option (outcome (list string)) :=
  match fetch_loop get_product_list fuel "" [] with
  | None => None
  | Some product_list =>
      Some (outcome_map (λ l : list Product, offer_id <$> l) product_list)
  end.

End SellerCatalog.

(** [get_offer_ids] of market.py. Of [result] the loop reads
    [offerMappingEntries] and [paging.nextPageToken], which is absent
    ([None]) or a string, and of every entry its [offer.shopSku]. *)
Module MarketCatalog.

Record Entry : Type := mkEntry { shopSku : string }.

Record Result : Type := mkResult {
  offerMappingEntries : list Entry;
  nextPageToken : option string
}.

(** [not page] for the token read from the answer. *)
Definition falsy (page : option string) : bool :=
  match page with
  | None => true
  | Some s => bool_decide (s = "")
  end.

Fixpoint fetch_loop (get_product_list : string → outcome Result) (fuel : nat)
    (page : string) (product_list : list Entry)
    : option (outcome (list Entry)) :=
  match fuel with
  | O => None
  | S fuel =>
      match get_product_list page with
      | Raise e => Some (Raise e)
      | Ok some_prod =>
          let product_list := product_list ++ offerMappingEntries some_prod in
          match nextPageToken some_prod with
          | Some page =>
              if falsy (Some page) then Some (Ok product_list)
              else fetch_loop get_product_list fuel page product_list
          | None => Some (Ok product_list)
          end
      end
  end.

Definition get_offer_ids (get_product_list : string → outcome Result)
    (fuel : nat) : option (outcome (list string)) :=
  match fetch_loop get_product_list fuel "" [] with
  | None => None
  | Some product_list =>
      Some (outcome_map (λ l : list Entry, shopSku <$> l) product_list)
  end.

End MarketCatalog.

(** A listing endpoint that answers the cursor [c] and the cursors that
    follow it with the pages [rs], in this order. *)
Inductive seller_pages (get : string → outcome SellerCatalog.Result)
    : string → list SellerCatalog.Result → Prop :=
  | seller_pages_last c r :
      get c = Ok r → seller_pages get c [r]
  | seller_pages_more c r rs :
      get c = Ok r → seller_pages get (SellerCatalog.last_id r) rs →
      seller_pages get c (r :: rs).

(** The same for market.py, where every page but the last carries a
    token that is not empty and the last one carries none or an empty
    one. *)
Inductive market_pages (get : string → outcome MarketCatalog.Result)
    : string → list MarketCatalog.Result → Prop :=
  | market_pages_last c r :
      get c = Ok r → MarketCatalog.falsy (MarketCatalog.nextPageToken r) = true →
      market_pages get c [r]
  | market_pages_more c r t rs :
      get c = Ok r → MarketCatalog.nextPageToken r = Some t → t ≠ "" →
      market_pages get t rs →
      market_pages get c (r :: rs).

(** Sample endpoints: three offers served in two pages. *)
Definition sample_seller_endpoint (c : string) : outcome SellerCatalog.Result :=
  if decide (c = "") then
    Ok (SellerCatalog.mkResult
          [SellerCatalog.mkProduct "A"; SellerCatalog.mkProduct "B"] 3 "p2")
  else if decide (c = "p2") then
    Ok (SellerCatalog.mkResult [SellerCatalog.mkProduct "C"] 3 "p3")
  else Raise ValueError.

Definition sample_market_endpoint (c : string) : outcome MarketCatalog.Result :=
  if decide (c = "") then
    Ok (MarketCatalog.mkResult
          [MarketCatalog.mkEntry "A"; MarketCatalog.mkEntry "B"] (Some "p2"))
  else if decide (c = "p2") then
    Ok (MarketCatalog.mkResult [MarketCatalog.mkEntry "C"] None)
  else Raise ValueError.

(** The requests of a run that carry stock updates. *)
Definition seller_is_stock_call (c : Seller.api_call) : Prop :=
  match c with
  | Seller.update_stocks _ => True
  | Seller.update_price _ => False
  end.

(** * Properties *)

(** ** Sample runs *)

Example price_conversion_doc :
  Seller.price_conversion "19'990.00 руб." = "19990".
Proof. reflexivity. Qed.

Example divide_7_3 :
  Seller.divide [1; 2; 3; 4; 5; 6; 7] 3 = Ok [[1; 2; 3]; [4; 5; 6]; [7]].
Proof. reflexivity. Qed.

Example int_of_str_examples :
  Py.int_of_str " 42 " = Some 42 ∧ Py.int_of_str "-7" = Some (-7) ∧
  Py.int_of_str "1_000" = Some 1000 ∧ Py.int_of_str ">10" = None ∧
  Py.int_of_str "" = None ∧ Py.int_of_str "05" = Some 5 ∧
  Py.str_of_int 0 = "0" ∧ Py.str_of_int (-15) = "-15".
Proof. repeat split; reflexivity. Qed.

Example scenario_stocks :
  Seller.create_stocks scenario_feed ["A"; "B"; "C"] =
  (Ok [Seller.mkStock "A" 100; Seller.mkStock "B" 5; Seller.mkStock "C" 0], ["C"]).
Proof. vm_compute. reflexivity. Qed.

Example scenario_prices :
  Market.create_prices scenario_feed ["A"; "B"; "C"] =
  Ok [Market.mkPrice "A" (Market.mkValue 100 "RUR");
      Market.mkPrice "B" (Market.mkValue 50 "RUR")].
Proof. vm_compute. reflexivity. Qed.

(** ** Properties of the Python primitives *)

Section primitives.

Lemma is_digit_decide c : Py.is_digit c = bool_decide (Spec.ascii_digit c).
Proof. by destruct c as [[] [] [] [] [] [] [] []]; vm_compute. Qed.

Lemma is_digit_spec c : Py.is_digit c = true ↔ Spec.ascii_digit c.
Proof. rewrite is_digit_decide. apply bool_decide_eq_true. Qed.

Lemma split_nonempty sep s : Py.split sep s ≠ [].
Proof.
  destruct s as [|c s]; simpl; [done|].
  destruct (Ascii.eqb c sep); [done|]. by destruct (Py.split sep s).
Qed.

Lemma split_head sep s :
  nth 0 (Py.split sep s) EmptyString =
  (fix go s := match s with
               | EmptyString => EmptyString
               | String c s' =>
                   if Ascii.eqb c sep then EmptyString else String c (go s')
               end) s.
Proof.
  induction s as [|c s IH]; simpl; [done|].
  destruct (Ascii.eqb c sep); [done|].
  rewrite <- IH. pose proof (split_nonempty sep s).
  by destruct (Py.split sep s).
Qed.

Lemma re_sub_non_digit_spec s : Py.re_sub_non_digit s = Spec.keep_digits s.
Proof.
  unfold Spec.keep_digits.
  induction s as [|c s IH]; simpl; [done|].
  rewrite filter_cons. pose proof (is_digit_spec c) as Hc.
  destruct (Py.is_digit c), (decide (Spec.ascii_digit c)) as [Hd|Hd]; simpl;
    try (by rewrite IH).
  - exfalso. apply Hd, Hc. done.
  - apply Hc in Hd. discriminate.
Qed.

Lemma re_sub_non_digit_none s :
  (∀ c, c ∈ list_ascii_of_string s → ¬ Spec.ascii_digit c) →
  Py.re_sub_non_digit s = EmptyString.
Proof.
  induction s as [|c s IH]; simpl; intros H; [done|].
  destruct (Py.is_digit c) eqn:E.
  - exfalso. apply (H c); [left|]. by apply is_digit_spec.
  - apply IH. intros d Hd. apply H. by right.
Qed.

Lemma before_first_dot_sub s c :
  c ∈ list_ascii_of_string (Spec.before_first_dot s) →
  c ∈ list_ascii_of_string s.
Proof.
  induction s as [|d s IH]; simpl; [done|].
  destruct (Ascii.eqb d "."); simpl.
  - intros H. by apply not_elem_of_nil in H.
  - intros [->|H]%elem_of_cons; [left|right; auto].
Qed.

End primitives.

(** ** Properties of [range], slices and [divide] *)

Section batching.

Context {A : Type}.
Implicit Types (lst : list A) (n : Z).

Lemma range_len_chunks (L : nat) n :
  0 < n →
  let c := Z.to_nat (Py.range_len 0 (Z.of_nat L) n) in
  let m := Z.to_nat n in
  (L ≤ c * m ∧ ∀ k, k < c → k * m < L)%nat.
Proof.
  intros Hn c m. subst c m. unfold Py.range_len.
  destruct (Z.ltb_spec 0 n) as [_|?]; [|lia].
  destruct (Z.ltb_spec 0 (Z.of_nat L)) as [HL|HL].
  - replace (Z.of_nat L - 0 - 1) with (Z.of_nat L - 1) by lia.
    pose proof (Z.div_mod (Z.of_nat L - 1) n ltac:(lia)) as Hdm.
    pose proof (Z.mod_pos_bound (Z.of_nat L - 1) n Hn) as Hr.
    assert (0 ≤ (Z.of_nat L - 1) / n) as Hq by (apply Z.div_pos; lia).
    set (q := (Z.of_nat L - 1) / n) in *.
    set (r := (Z.of_nat L - 1) mod n) in *.
    split.
    + apply Nat2Z.inj_le. rewrite Nat2Z.inj_mul, !Z2Nat.id by lia. nia.
    + intros k Hk. apply Nat2Z.inj_lt. rewrite Nat2Z.inj_mul, Z2Nat.id by lia.
      assert (Z.of_nat k ≤ q) by lia. nia.
  - assert (L = 0%nat) as -> by lia. simpl. split; [lia|]. intros k Hk. lia.
Qed.

Lemma slice_chunk lst n (k : nat) :
  0 < n →
  Py.slice lst (0 + Z.of_nat k * n) (0 + Z.of_nat k * n + n) =
  take (Z.to_nat n) (drop (k * Z.to_nat n) lst).
Proof.
  intros Hn. unfold Py.slice, Py.clamp.
  set (L := length lst). set (m := Z.to_nat n).
  assert (n = Z.of_nat m) as Hm by (subst m; lia).
  clearbody m. subst n. assert (0 < m)%nat by lia.
  destruct (Z.ltb_spec (0 + Z.of_nat k * Z.of_nat m) 0) as [?|_]; [lia|].
  destruct (Z.ltb_spec (0 + Z.of_nat k * Z.of_nat m + Z.of_nat m) 0) as [?|_]; [lia|].
  set (lo := Z.to_nat ((0 + Z.of_nat k * Z.of_nat m) `min` Z.of_nat L)).
  set (hi := Z.to_nat ((0 + Z.of_nat k * Z.of_nat m + Z.of_nat m) `min` Z.of_nat L)).
  assert (lo = (k * m) `min` L)%nat as Hlo by lia.
  assert (hi = (k * m + m) `min` L)%nat as Hhi by lia.
  clearbody lo hi. subst lo hi.
  destruct (decide (k * m ≤ L)%nat) as [H2|H2].
  - rewrite (Nat.min_l (k * m)) by lia.
    destruct (decide (k * m + m ≤ L)%nat) as [H1|H1].
    + rewrite Nat.min_l by lia. f_equal. lia.
    + rewrite Nat.min_r by lia.
      rewrite !take_ge; [done| |]; rewrite length_drop; fold L; lia.
  - rewrite !Nat.min_r by lia. rewrite Nat.sub_diag. simpl.
    rewrite (drop_ge lst (k * m)) by (fold L; lia). by rewrite take_nil.
Qed.

Lemma divide_positive lst n :
  0 < n →
  Seller.divide lst n =
  Ok ((λ k, take (Z.to_nat n) (drop (k * Z.to_nat n) lst)) <$>
        seq 0 (Z.to_nat (Py.range_len 0 (Z.of_nat (length lst)) n))).
Proof.
  intros Hn. unfold Seller.divide, Py.range.
  destruct (Z.eqb_spec n 0) as [?|_]; [lia|]. f_equal.
  rewrite <- list_fmap_compose. apply list_fmap_ext.
  intros i k _. simpl. by apply slice_chunk.
Qed.

Lemma chunks_concat lst (m c : nat) :
  concat ((λ k, take m (drop (k * m) lst)) <$> seq 0 c) = take (c * m) lst.
Proof.
  induction c as [|c IH]; [done|].
  rewrite seq_S, fmap_app, concat_app, IH. simpl.
  rewrite app_nil_r, take_take_drop. f_equal. lia.
Qed.

Lemma chunk_length lst (m k : nat) :
  length (take m (drop (k * m) lst)) = (m `min` (length lst - k * m))%nat.
Proof. by rewrite length_take, length_drop. Qed.

Lemma divide_batches lst n :
  0 < n →
  ∃ chunks, Seller.divide lst n = Ok chunks ∧ batches_of (Z.to_nat n) lst chunks.
Proof.
  intros Hn. eexists. split; [by apply divide_positive|].
  set (c := Z.to_nat (Py.range_len 0 (Z.of_nat (length lst)) n)).
  set (m := Z.to_nat n).
  destruct (range_len_chunks (length lst) n Hn) as [Hc Hk].
  fold c m in Hc, Hk. assert (0 < m)%nat by (subst m; lia).
  split.
  - rewrite chunks_concat. by apply take_ge.
  - intros i ch Hi. rewrite length_fmap, length_seq.
    rewrite list_lookup_fmap in Hi.
    destruct (seq 0 c !! i) as [k|] eqn:Hs; [|done].
    apply lookup_seq in Hs as [-> Hlt]. simpl in Hi.
    injection Hi as <-. rewrite chunk_length.
    pose proof (Hk i Hlt). split; [lia|].
    intros Hnext. pose proof (Hk (S i) Hnext). lia.
Qed.

End batching.

(** ** The Price Normalizer and the Batcher *)

(** C6. [price_conversion] is the Price Normalizer of the specification:
    the part of the string before its first ['.'] (the whole string when it
    has none) with every character that is not an ASCII digit deleted.  The
    documented price ["19'990.00 руб."] becomes ["19990"], and a string
    without digits becomes the empty string. *)
Theorem price_conversion_normalizes :
  (∀ s, Seller.price_conversion s = Spec.normalize_price s) ∧
  Seller.price_conversion "19'990.00 руб." = "19990" ∧
  (∀ s, Forall (λ c, ¬ Spec.ascii_digit c) (list_ascii_of_string s) →
        Seller.price_conversion s = "").
Proof.
  split; [|split].
  - intros s. unfold Seller.price_conversion, Spec.normalize_price.
    rewrite re_sub_non_digit_spec. f_equal.
    rewrite split_head. induction s as [|c s IH]; simpl; [done|].
    destruct (Ascii.eqb c "."); [done|]. by rewrite IH.
  - reflexivity.
  - intros s Hs. unfold Seller.price_conversion. rewrite split_head.
    apply re_sub_non_digit_none. intros c Hc.
    rewrite Forall_forall in Hs. apply Hs.
    by apply (before_first_dot_sub s c).
Qed.

Lemma price_conversion_normalizes_witness :
  Seller.price_conversion "no digits here" = "".
Proof.
  apply (proj2 (proj2 price_conversion_normalizes)).
  apply (bool_decide_unpack _). vm_compute. exact I.
Defined.

(** C7. For a chunk size [n > 0], [divide lst n] yields chunks whose
    concatenation is [lst]; every chunk holds between [1] and [n] elements,
    and every chunk but the last holds exactly [n].  A list of 1050
    elements cut by 500 gives chunks of 500, 500 and 50 elements. *)
Theorem divide_chunks {A} :
  (∀ (lst : list A) (n : Z), 0 < n →
     ∃ chunks, Seller.divide lst n = Ok chunks ∧
       concat chunks = lst ∧
       ∀ (i : nat) c, chunks !! i = Some c →
         (1 ≤ length c ≤ Z.to_nat n)%nat ∧
         (S i < length chunks → length c = Z.to_nat n)%nat) ∧
  (∀ lst : list A, length lst = 1050%nat →
     ∃ chunks, Seller.divide lst 500 = Ok chunks ∧
       concat chunks = lst ∧
       length <$> chunks = [500; 500; 50]%nat).
Proof.
  split.
  - intros lst n Hn. destruct (divide_batches lst n Hn) as (chunks & Hrun & Hcat & Hlen).
    by exists chunks.
  - intros lst Hlen. eexists. split; [by apply divide_positive|].
    rewrite Hlen. split.
    + rewrite chunks_concat. apply take_ge. rewrite Hlen. vm_compute. lia.
    + change (Z.to_nat (Py.range_len 0 (Z.of_nat 1050) 500)) with 3%nat.
      simpl seq. rewrite !fmap_cons, !chunk_length, Hlen. reflexivity.
Qed.

Lemma divide_chunks_witness :
  (∃ chunks, Seller.divide [1; 2; 3; 4; 5; 6; 7] 3 = Ok chunks ∧
     concat chunks = [1; 2; 3; 4; 5; 6; 7] ∧
     ∀ (i : nat) c, chunks !! i = Some c →
       (1 ≤ length c ≤ Z.to_nat 3)%nat ∧
       (S i < length chunks → length c = Z.to_nat 3)%nat) ∧
  (∃ chunks, Seller.divide (seq 1 1050) 500 = Ok chunks ∧
     concat chunks = seq 1 1050 ∧
     length <$> chunks = [500; 500; 50]%nat).
Proof.
  split.
  - apply (proj1 divide_chunks [1; 2; 3; 4; 5; 6; 7] 3). lia.
  - apply (proj2 divide_chunks (seq 1 1050)). apply length_seq.
Defined.

(** C8.  What [divide] does for a chunk size that is not positive: a zero
    size raises [ValueError] for every list, a negative size raises nothing
    and yields no chunk at all. *)
Theorem divide_nonpositive {A} :
  (∀ lst : list A, Seller.divide lst 0 = Raise ValueError) ∧
  (∀ (lst : list A) (n : Z), n < 0 → Seller.divide lst n = Ok []).
Proof.
  split; [done|]. intros lst n Hn. unfold Seller.divide, Py.range.
  destruct (Z.eqb_spec n 0) as [?|_]; [lia|].
  unfold Py.range_len. destruct (Z.ltb_spec 0 n) as [?|_]; [lia|].
  destruct (Z.ltb_spec (Z.of_nat (length lst)) 0) as [?|_]; [lia|]. done.
Qed.

Lemma divide_nonpositive_witness :
  Seller.divide [1; 2; 3] (-1) = Ok [].
Proof. apply (proj2 divide_nonpositive [1; 2; 3] (-1)). lia. Defined.

(** ** [int] undoes [str] on integers *)

Section decimal.

Abbreviation chars d := (list_ascii_of_string (NilEmpty.string_of_uint d)).

Lemma parse_digits_cons acc c cs :
  Py.is_digit c = true →
  Py.parse_digits acc false (c :: cs) =
  Py.parse_digits (10 * acc + Py.digit_val c) false cs.
Proof. intros H. simpl. by rewrite H. Qed.

Ltac digit_step :=
  cbn [list_ascii_of_string NilEmpty.string_of_uint];
  rewrite parse_digits_cons by reflexivity;
  match goal with
  | |- context [Py.digit_val ?c] =>
      let v := eval vm_compute in (Py.digit_val c) in
      change (Py.digit_val c) with v
  end.

Lemma parse_digits_acc d p :
  Py.parse_digits (Z.pos p) false (chars d) = Some (Z.pos (Pos.of_uint_acc d p)).
Proof.
  revert p. induction d; intros p; [done|..];
    digit_step; cbn [Pos.of_uint_acc]; rewrite <- IHd; f_equal; lia.
Qed.

Lemma parse_digits_zero d :
  Py.parse_digits 0 false (chars d) = Some (Z.of_N (Pos.of_uint d)).
Proof.
  induction d; [done|..]; digit_step; cbn [Pos.of_uint];
    rewrite Z.mul_0_r, Z.add_0_l; first [exact IHd | apply parse_digits_acc].
Qed.

Lemma digits_value_uint d :
  Py.digits_value (list_ascii_of_string (NilZero.string_of_uint d)) =
  Some (Z.of_uint d).
Proof.
  unfold Z.of_uint. rewrite <- parse_digits_zero.
  destruct d; reflexivity.
Qed.

Lemma chars_not_space d :
  Forall (λ c, Py.is_space c = false)
    (list_ascii_of_string (NilZero.string_of_uint d)).
Proof.
  assert (Forall (λ c, Py.is_space c = false) (chars d)) as H
    by (induction d; simpl; constructor; done).
  destruct d; try exact H. repeat constructor.
Qed.

Lemma lstrip_id cs :
  Forall (λ c, Py.is_space c = false) cs → Py.lstrip cs = cs.
Proof. destruct 1 as [|c cs Hc _]; simpl; [done|]. by rewrite Hc. Qed.

Lemma strip_id cs :
  Forall (λ c, Py.is_space c = false) cs → Py.strip cs = cs.
Proof.
  intros H. unfold Py.strip. rewrite (lstrip_id cs H).
  rewrite lstrip_id, rev_involutive; [done|].
  apply Forall_forall. intros c Hc. rewrite Forall_forall in H.
  apply H. apply list_elem_of_In. apply in_rev. by apply list_elem_of_In.
Qed.

Lemma int_of_str_decimal (i : Decimal.int) :
  Py.int_of_str (NilZero.string_of_int i) = Some (Z.of_int i).
Proof.
  unfold Py.int_of_str. destruct i as [d|d]; simpl.
  - rewrite strip_id by apply chars_not_space.
    rewrite <- digits_value_uint. destruct d; reflexivity.
  - rewrite strip_id by (constructor; [done|apply chars_not_space]).
    by rewrite digits_value_uint.
Qed.

Lemma int_of_str_of_int z : Py.int_of_str (Py.str_of_int z) = Some z.
Proof. unfold Py.str_of_int. by rewrite int_of_str_decimal, DecimalZ.of_to. Qed.

Lemma str_of_int_inj z1 z2 : Py.str_of_int z1 = Py.str_of_int z2 → z1 = z2.
Proof.
  intros H. pose proof (int_of_str_of_int z1) as H1.
  rewrite H, int_of_str_of_int in H1. by injection H1.
Qed.

End decimal.

(** ** Membership and removal on the list of offer ids *)

Section offer_list.

Implicit Types (x y : string) (l : list string).

Lemma contains_true x l : Py.contains x l = true ↔ x ∈ l.
Proof. apply bool_decide_eq_true. Qed.

Lemma contains_false x l : Py.contains x l = false ↔ x ∉ l.
Proof. apply bool_decide_eq_false. Qed.

Lemma remove_first_elem x l : x ∈ l → is_Some (Py.remove_first x l).
Proof.
  induction l as [|y l IH]; intros Hx; [by apply elem_of_nil in Hx|].
  simpl. destruct (decide (x = y)) as [->|Hne]; [by eexists|].
  apply elem_of_cons in Hx as [?|Hx]; [done|].
  destruct (IH Hx) as [l' ->]. by eexists.
Qed.

Lemma remove_first_perm x l l' : Py.remove_first x l = Some l' → l ≡ₚ x :: l'.
Proof.
  revert l'. induction l as [|y l IH]; intros l'; simpl; [done|].
  destruct (decide (x = y)) as [->|Hne].
  - by intros [= ->].
  - destruct (Py.remove_first x l) as [l1|]; [|done]. intros [= <-].
    rewrite (IH l1 eq_refl). apply Permutation_swap.
Qed.

Lemma remove_first_NoDup x l l' :
  NoDup l → Py.remove_first x l = Some l' → l' = filter (λ y, y ≠ x) l.
Proof.
  intros Hnd. revert l'. induction Hnd as [|y l Hy Hnd IH]; intros l'; simpl; [done|].
  destruct (decide (x = y)) as [->|Hne].
  - intros [= <-]. rewrite filter_cons_False by (intros H; by apply H).
    clear IH. induction l as [|z l IH]; [done|].
    apply not_elem_of_cons in Hy as [Hz Hy]. apply NoDup_cons in Hnd as [_ Hnd].
    rewrite filter_cons_True by done. f_equal. by apply IH.
  - destruct (Py.remove_first x l) as [l1|]; [|done]. intros [= <-].
    rewrite filter_cons_True by done. f_equal. by apply IH.
Qed.

Lemma remove_first_other x y l l' :
  Py.remove_first x l = Some l' → y ≠ x → y ∈ l → y ∈ l'.
Proof.
  intros Hr Hne Hy. apply remove_first_perm in Hr. rewrite Hr in Hy.
  apply elem_of_cons in Hy as [?|?]; done.
Qed.

Lemma remove_first_sub x y l l' : Py.remove_first x l = Some l' → y ∈ l' → y ∈ l.
Proof. intros Hr Hy. apply remove_first_perm in Hr. rewrite Hr. by right. Qed.

Lemma remove_ok x l : x ∈ l → ∃ l', Py.remove_first x l = Some l' ∧ Py.remove x l = Ok l'.
Proof.
  intros [l' Hl']%remove_first_elem. exists l'. unfold Py.remove. by rewrite Hl'.
Qed.

Lemma filter_not_in_cons x (xs l : list string) :
  filter (λ y, y ∉ xs) (filter (λ y, y ≠ x) l) = filter (λ y, y ∉ x :: xs) l.
Proof.
  induction l as [|z l IH]; [done|].
  destruct (decide (z = x)) as [->|Hne].
  - rewrite (filter_cons_False _ x l) by (intros H; by apply H).
    rewrite (filter_cons_False _ x l) by (intros H; apply H; left). done.
  - rewrite (filter_cons_True _ z l) by done.
    destruct (decide (z ∈ xs)) as [Hin|Hout].
    + rewrite !filter_cons_False; [done|intros H; apply H; by right|by intros H].
    + rewrite !filter_cons_True; [by f_equal| |done].
      intros [?|?]%elem_of_cons; done.
Qed.

Lemma filter_not_in_skip x (xs l : list string) :
  x ∉ l → filter (λ y, y ∉ xs) l = filter (λ y, y ∉ x :: xs) l.
Proof.
  intros Hx. rewrite <- filter_not_in_cons. f_equal.
  induction l as [|z l IH]; [done|].
  apply not_elem_of_cons in Hx as [Hz Hx].
  rewrite filter_cons_True by done. f_equal. by apply IH.
Qed.

End offer_list.

(** ** The loops of [create_stocks] *)

Section stocks.

Implicit Types (F : list watch) (C : list string) (w : watch).

Lemma stock_of_wf w :
  quantity_wf (get w "Количество") = true → ∃ n, Seller.stock_of w = Ok n.
Proof.
  unfold quantity_wf, Seller.stock_of. intros [_ H]%andb_true_iff.
  destruct (decide (Py.str (get w "Количество") = ">10")); [by eexists|].
  destruct (decide (Py.str (get w "Количество") = "1")); [by eexists|].
  rewrite !bool_decide_eq_false_2 in H by done. simpl in H.
  destruct (Py.int (get w "Количество")); [by eexists|done].
Qed.

Lemma stocks_loop_skip w F acc C :
  code w ∉ C →
  Seller.stocks_loop (w :: F) acc C = Seller.stocks_loop F acc C.
Proof. intros H. simpl. apply contains_false in H. by rewrite H. Qed.

Lemma stocks_loop_match w F acc C :
  code w ∈ C →
  ∃ C1, Py.remove_first (code w) C = Some C1 ∧
    Seller.stocks_loop (w :: F) acc C =
    match Seller.stock_of w with
    | Raise e => (Raise e, C)
    | Ok n => Seller.stocks_loop F (acc ++ [Seller.mkStock (code w) n]) C1
    end.
Proof.
  intros H. destruct (remove_ok _ _ H) as (C1 & H1 & H2). exists C1.
  split; [done|]. simpl. apply contains_true in H. rewrite H, H2. done.
Qed.

Lemma stocks_loop_ok F acc C r C' :
  Seller.stocks_loop F acc C = (Ok r, C') →
  ∃ new, r = acc ++ new ∧
    (Seller.offer_id <$> new) ++ C' ≡ₚ C ∧
    (∀ u, u ∈ new → Seller.offer_id u ∈ codes F) ∧
    (NoDup C → C' = filter (λ id, id ∉ codes F) C).
Proof.
  revert acc C. induction F as [|w F IH]; intros acc C Hrun.
  - simpl in Hrun. injection Hrun as <- <-. exists []. rewrite app_nil_r.
    split_and!; [done|done| |].
    + intros u Hu. by apply elem_of_nil in Hu.
    + intros _. induction C as [|c C IHC]; [done|].
      rewrite filter_cons_True by apply not_elem_of_nil. by f_equal.
  - destruct (decide (code w ∈ C)) as [Hin|Hout].
    + destruct (stocks_loop_match w F acc C Hin) as (C1 & Hrem & Heq).
      rewrite Heq in Hrun. destruct (Seller.stock_of w) as [n|e]; [|done].
      destruct (IH _ _ Hrun) as (new & -> & Hperm & Hcodes & Hnd).
      exists (Seller.mkStock (code w) n :: new). split_and!.
      * by rewrite <- app_assoc.
      * rewrite (remove_first_perm _ _ _ Hrem). simpl. by rewrite Hperm.
      * intros u [->|Hu]%elem_of_cons; [left|right; by apply Hcodes].
      * intros HC. rewrite Hnd.
        -- rewrite (remove_first_NoDup _ _ _ HC Hrem). apply filter_not_in_cons.
        -- rewrite (remove_first_NoDup _ _ _ HC Hrem). by apply NoDup_filter.
    + rewrite stocks_loop_skip in Hrun by done.
      destruct (IH _ _ Hrun) as (new & -> & Hperm & Hcodes & Hnd).
      exists new. split_and!; [done|done| |].
      * intros u Hu. right. by apply Hcodes.
      * intros HC. rewrite (Hnd HC). by apply filter_not_in_skip.
Qed.

Lemma feed_wf_sub C C1 F :
  (∀ y, y ∈ C1 → y ∈ C) → feed_wf C F → feed_wf C1 F.
Proof.
  intros Hsub Hwf. eapply Forall_impl; [exact Hwf|].
  intros w [Hp Hw]. simpl in *. split; [done|]. auto.
Qed.

Lemma stocks_loop_total F acc C :
  feed_wf C F → ∃ r C', Seller.stocks_loop F acc C = (Ok r, C').
Proof.
  revert acc C. induction F as [|w F IH]; intros acc C Hwf; [by eexists _, _|].
  apply Forall_cons in Hwf as [[_ Hw] Hwf].
  destruct (decide (code w ∈ C)) as [Hin|Hout].
  - destruct (stocks_loop_match w F acc C Hin) as (C1 & Hrem & ->).
    destruct (stock_of_wf w (Hw Hin)) as [n ->]. apply IH.
    apply (feed_wf_sub C); [|done]. intros y. by apply (remove_first_sub _ _ _ _ Hrem).
  - rewrite stocks_loop_skip by done. by apply IH.
Qed.

Lemma stocks_loop_emits F1 w F2 acc C r C' :
  Seller.stocks_loop (F1 ++ w :: F2) acc C = (Ok r, C') →
  code w ∈ C → code w ∉ codes F1 →
  ∃ n, Seller.stock_of w = Ok n ∧ Seller.mkStock (code w) n ∈ r.
Proof.
  revert acc C. induction F1 as [|w1 F1 IH]; intros acc C Hrun Hin Hfresh.
  - destruct (stocks_loop_match w F2 acc C Hin) as (C1 & Hrem & Heq).
    simpl app in Hrun. rewrite Heq in Hrun.
    destruct (Seller.stock_of w) as [n|e]; [|done]. exists n. split; [done|].
    destruct (stocks_loop_ok _ _ _ _ _ Hrun) as (new & -> & _).
    rewrite !elem_of_app. left. right. left.
  - apply not_elem_of_cons in Hfresh as [Hne Hfresh]. simpl app in Hrun.
    destruct (decide (code w1 ∈ C)) as [Hin1|Hout1].
    + destruct (stocks_loop_match w1 (F1 ++ w :: F2) acc C Hin1) as (C1 & Hrem & Heq).
      rewrite Heq in Hrun. destruct (Seller.stock_of w1) as [n1|e]; [|done].
      apply (IH _ _ Hrun); [|done]. by apply (remove_first_other _ _ _ _ Hrem).
    + rewrite stocks_loop_skip in Hrun by done. by apply (IH _ _ Hrun).
Qed.

(** market.py runs the same loop and only dresses the entries differently. *)
Lemma market_stocks_loop F wh d acc C :
  Market.stocks_loop F (to_market wh d <$> acc) C wh d =
  (outcome_map (fmap (to_market wh d)) (Seller.stocks_loop F acc C).1,
   (Seller.stocks_loop F acc C).2).
Proof.
  revert acc C. induction F as [|w F IH]; intros acc C; [done|].
  simpl. destruct (Py.contains (code w) C); [|apply IH].
  change (Market.stock_of w) with (Seller.stock_of w).
  destruct (Seller.stock_of w) as [n|e]; [|done].
  destruct (Py.remove (code w) C) as [C1|e]; [|done].
  rewrite <- IH. f_equal. by rewrite fmap_app.
Qed.

Lemma market_create_stocks F C wh d :
  Market.create_stocks F C wh d =
  (outcome_map (fmap (to_market wh d)) (Seller.create_stocks F C).1,
   (Seller.create_stocks F C).2).
Proof.
  unfold Market.create_stocks, Seller.create_stocks.
  pose proof (market_stocks_loop F wh d [] C) as H. simpl fmap in H. rewrite H.
  destruct (Seller.stocks_loop F [] C) as [[r|e] C']; simpl; [|done].
  f_equal. f_equal. rewrite fmap_app. f_equal.
  rewrite <- list_fmap_compose. done.
Qed.

End stocks.

Section coverage.

Implicit Types (F : list watch) (C : list string) (w : watch).

Lemma create_stocks_ok F C r C' :
  Seller.create_stocks F C = (Ok r, C') →
  ∃ new, Seller.stocks_loop F [] C = (Ok new, C') ∧
    r = new ++ ((λ id, Seller.mkStock id 0) <$> C') ∧
    Seller.offer_id <$> r ≡ₚ C.
Proof.
  unfold Seller.create_stocks.
  destruct (Seller.stocks_loop F [] C) as [[new|e] C1] eqn:Hloop; [|done].
  intros [= <- <-]. exists new. split_and!; [done|done|].
  destruct (stocks_loop_ok _ _ _ _ _ Hloop) as (new' & Heq & Hperm & _).
  simpl in Heq. subst new'. rewrite fmap_app, <- list_fmap_compose.
  replace ((Seller.offer_id ∘ (λ id, Seller.mkStock id 0)) <$> C1) with C1; [done|].
  by rewrite <- (list_fmap_id C1) at 1.
Qed.

Lemma create_stocks_total F C :
  feed_wf C F → ∃ r C', Seller.create_stocks F C = (Ok r, C').
Proof.
  intros Hwf. unfold Seller.create_stocks.
  destruct (stocks_loop_total F [] C Hwf) as (r & C' & ->). by eexists _, _.
Qed.

Lemma market_create_stocks_ok F C wh d r C' :
  Market.create_stocks F C wh d = (Ok r, C') →
  ∃ r0, Seller.create_stocks F C = (Ok r0, C') ∧
    r = to_market wh d <$> r0 ∧ Market.sku <$> r = Seller.offer_id <$> r0.
Proof.
  rewrite market_create_stocks.
  destruct (Seller.create_stocks F C) as [[r0|e] C0]; simpl; [|done].
  intros [= <- <-]. exists r0. split_and!; [done|done|].
  by rewrite <- list_fmap_compose.
Qed.


End coverage.

(** ** The reconciled stock updates *)




Section quantity_rule.

Lemma stock_of_rule (w : watch) :
  let count := Py.str (get w "Количество") in
  (count = ">10" → Seller.stock_of w = Ok 100) ∧
  (count = "1" → Seller.stock_of w = Ok 0) ∧
  (∀ N, N ≠ 1 → count = Py.str_of_int N → Seller.stock_of w = Ok N).
Proof.
  unfold Seller.stock_of. split_and!.
  - intros ->. done.
  - intros ->. done.
  - intros N HN Hq.
    assert (Py.int_of_str (Py.str (get w "Количество")) = Some N) as Hint
      by (rewrite Hq; apply int_of_str_of_int).
    destruct (decide (Py.str (get w "Количество") = ">10")) as [E|_];
      [by rewrite E in Hint|].
    destruct (decide (Py.str (get w "Количество") = "1")) as [E|_].
    { rewrite E in Hint. injection Hint as <-. done. }
    destruct (get w "Количество") as [|m|s]; simpl in *.
    + discriminate Hint.
    + f_equal. by apply str_of_int_inj.
    + by rewrite Hint.
Qed.

End quantity_rule.

(** C2, as the code has it. For a feed row whose code is listed and that
    is the first row of the feed with that code, the update emitted for it
    carries 100 when the quantity reads [">10"], 0 when it reads ["1"], and
    [N] when it reads as the integer [N], for every integer [N] other
    than 1. This holds for seller.py and for market.py. *)
Theorem create_stocks_quantity
    (F1 : list watch) (w : watch) (F2 : list watch) (C : list string) :
  code w ∈ C → code w ∉ codes F1 →
  let count := Py.str (get w "Количество") in
  (∀ stocks C', Seller.create_stocks (F1 ++ w :: F2) C = (Ok stocks, C') →
     (count = ">10" → Seller.mkStock (code w) 100 ∈ stocks) ∧
     (count = "1" → Seller.mkStock (code w) 0 ∈ stocks) ∧
     (∀ N, N ≠ 1 → count = Py.str_of_int N →
        Seller.mkStock (code w) N ∈ stocks)) ∧
  (∀ warehouse_id date stocks C',
     Market.create_stocks (F1 ++ w :: F2) C warehouse_id date = (Ok stocks, C') →
     (count = ">10" → Market.entry (code w) warehouse_id 100 date ∈ stocks) ∧
     (count = "1" → Market.entry (code w) warehouse_id 0 date ∈ stocks) ∧
     (∀ N, N ≠ 1 → count = Py.str_of_int N →
        Market.entry (code w) warehouse_id N date ∈ stocks)).
Proof.
  intros Hin Hfresh count.
  destruct (stock_of_rule w) as (Hmany & Hone & Hint). fold count in Hmany, Hone, Hint.
  assert (∀ stocks C', Seller.create_stocks (F1 ++ w :: F2) C = (Ok stocks, C') →
            ∃ n, Seller.stock_of w = Ok n ∧ Seller.mkStock (code w) n ∈ stocks)
    as Hemit.
  { intros stocks C' Hrun.
    destruct (create_stocks_ok _ _ _ _ Hrun) as (new & Hloop & -> & _).
    destruct (stocks_loop_emits _ _ _ _ _ _ _ Hloop Hin Hfresh) as (n & Hn & Hmem).
    exists n. split; [done|]. apply elem_of_app. by left. }
  split.
  - intros stocks C' Hrun. destruct (Hemit _ _ Hrun) as (n & Hn & Hmem).
    split_and!.
    + intros Hc. rewrite (Hmany Hc) in Hn. by injection Hn as <-.
    + intros Hc. rewrite (Hone Hc) in Hn. by injection Hn as <-.
    + intros N HN Hc. rewrite (Hint N HN Hc) in Hn. by injection Hn as <-.
  - intros wh d stocks C' Hrun.
    destruct (market_create_stocks_ok _ _ _ _ _ _ Hrun) as (r0 & Hrun0 & -> & _).
    destruct (Hemit _ _ Hrun0) as (n & Hn & Hmem).
    apply (list_elem_of_fmap_2 (to_market wh d)) in Hmem.
    change (to_market wh d (Seller.mkStock (code w) n))
      with (Market.entry (code w) wh n d) in Hmem.
    split_and!.
    + intros Hc. rewrite (Hmany Hc) in Hn. by injection Hn as <-.
    + intros Hc. rewrite (Hone Hc) in Hn. by injection Hn as <-.
    + intros N HN Hc. rewrite (Hint N HN Hc) in Hn. by injection Hn as <-.
Qed.

Lemma create_stocks_quantity_witness :
  let F := [row "A" ">10" "100.00"; row "B" "5" "50.00"] in
  (∀ stocks C', Seller.create_stocks F ["A"; "B"; "C"] = (Ok stocks, C') →
     ("5" = ">10" → Seller.mkStock "B" 100 ∈ stocks) ∧
     ("5" = "1" → Seller.mkStock "B" 0 ∈ stocks) ∧
     (∀ N, N ≠ 1 → "5" = Py.str_of_int N → Seller.mkStock "B" N ∈ stocks)) ∧
  (∀ warehouse_id date stocks C',
     Market.create_stocks F ["A"; "B"; "C"] warehouse_id date = (Ok stocks, C') →
     ("5" = ">10" → Market.entry "B" warehouse_id 100 date ∈ stocks) ∧
     ("5" = "1" → Market.entry "B" warehouse_id 0 date ∈ stocks) ∧
     (∀ N, N ≠ 1 → "5" = Py.str_of_int N →
        Market.entry "B" warehouse_id N date ∈ stocks)).
Proof.
  apply (create_stocks_quantity [row "A" ">10" "100.00"] (row "B" "5" "50.00") []
           ["A"; "B"; "C"]).
  - apply (bool_decide_unpack _). vm_compute. exact I.
  - apply (bool_decide_unpack _). vm_compute. exact I.
Defined.

(** C2, as the claim has it, fails at [N = 1]: a listed row whose quantity
    reads as the integer 1 is given the quantity 0. It also fails for a
    row that repeats the code of an earlier row: the earlier row has used
    the offer id up, and nothing is emitted for the later one. *)
Lemma create_stocks_quantity_one_counterexample :
  Py.str (get (row "A" "1" "100.00") "Количество") = Py.str_of_int 1 ∧
  code (row "A" "1" "100.00") ∈ ["A"] ∧
  Seller.create_stocks [row "A" "1" "100.00"] ["A"] =
    (Ok [Seller.mkStock "A" 0], []) ∧
  ¬ (Seller.mkStock "A" 1 ∈ [Seller.mkStock "A" 0]) ∧
  Market.create_stocks [row "A" "1" "100.00"] ["A"] "wh" "t" =
    (Ok [Market.entry "A" "wh" 0 "t"], []) ∧
  ¬ (Market.entry "A" "wh" 1 "t" ∈ [Market.entry "A" "wh" 0 "t"]) ∧
  Seller.create_stocks [row "A" ">10" "100.00"; row "A" "5" "100.00"] ["A"] =
    (Ok [Seller.mkStock "A" 100], []).
Proof.
  split_and!; try (vm_compute; reflexivity).
  - apply (bool_decide_unpack _). vm_compute. exact I.
  - intros H%list_elem_of_singleton. discriminate H.
  - intros H%list_elem_of_singleton. discriminate H.
Qed.

(** ** The loops of [create_prices] *)

Section prices.

Implicit Types (F : list watch) (C : list string) (w : watch).

Lemma seller_prices_loop_ok F acc C r :
  Seller.prices_loop F acc C = Ok r →
  ∃ new, r = acc ++ new ∧
    Forall2 (seller_made C) (filter (λ w, code w ∈ C) F) new.
Proof.
  revert acc. induction F as [|w F IH]; intros acc; simpl.
  - intros [= <-]. exists []. by rewrite app_nil_r.
  - destruct (Py.contains (code w) C) eqn:Hc.
    + apply contains_true in Hc. rewrite filter_cons_True by done.
      destruct (get w "Цена") as [| |s] eqn:Hp; simpl; [done|done|].
      intros Hrun. destruct (IH _ Hrun) as (new & -> & Hall).
      eexists (_ :: new). split; [by rewrite <- app_assoc|].
      constructor; [|done]. split; [done|]. by exists s.
    + apply contains_false in Hc. rewrite filter_cons_False by done. apply IH.
Qed.

Lemma market_prices_loop_ok F acc C r :
  Market.prices_loop F acc C = Ok r →
  ∃ new, r = acc ++ new ∧
    Forall2 (market_made C) (filter (λ w, code w ∈ C) F) new.
Proof.
  revert acc. induction F as [|w F IH]; intros acc; simpl.
  - intros [= <-]. exists []. by rewrite app_nil_r.
  - destruct (Py.contains (code w) C) eqn:Hc.
    + apply contains_true in Hc. rewrite filter_cons_True by done.
      unfold Market.price_value_of.
      destruct (get w "Цена") as [| |s] eqn:Hp; simpl; [done|done|].
      destruct (Py.int_of_str (Seller.price_conversion s)) as [n|] eqn:Hn; [|done].
      intros Hrun. destruct (IH _ Hrun) as (new & -> & Hall).
      eexists (_ :: new). split; [by rewrite <- app_assoc|].
      constructor; [|done]. split; [done|]. by exists s, n.
    + apply contains_false in Hc. rewrite filter_cons_False by done. apply IH.
Qed.

Lemma seller_prices_loop_none F acc C :
  (∀ w, w ∈ F → code w ∉ C) → Seller.prices_loop F acc C = Ok acc.
Proof.
  revert acc. induction F as [|w F IH]; intros acc H; simpl; [done|].
  rewrite (proj2 (contains_false _ _)) by (apply H; left).
  apply IH. intros w' Hw'. apply H. by right.
Qed.

Lemma market_prices_loop_none F acc C :
  (∀ w, w ∈ F → code w ∉ C) → Market.prices_loop F acc C = Ok acc.
Proof.
  revert acc. induction F as [|w F IH]; intros acc H; simpl; [done|].
  rewrite (proj2 (contains_false _ _)) by (apply H; left).
  apply IH. intros w' Hw'. apply H. by right.
Qed.



End prices.

Section price_digits.

Lemma re_sub_digits s :
  Forall (λ c, Py.is_digit c = true) (list_ascii_of_string (Py.re_sub_non_digit s)).
Proof.
  induction s as [|c s IH]; simpl; [constructor|].
  destruct (Py.is_digit c) eqn:Hc; [|done]. by constructor.
Qed.

Lemma parse_digits_total cs acc :
  Forall (λ c, Py.is_digit c = true) cs →
  ∃ n, Py.parse_digits acc false cs = Some n.
Proof.
  intros H. revert acc. induction H as [|c cs Hc _ IH]; intros acc; simpl.
  - by eexists.
  - rewrite Hc. apply IH.
Qed.

Lemma digit_not_space c : Py.is_digit c = true → Py.is_space c = false.
Proof. by destruct c as [[] [] [] [] [] [] [] []]; vm_compute. Qed.

Lemma int_of_str_digits s :
  s ≠ "" → Forall (λ c, Py.is_digit c = true) (list_ascii_of_string s) →
  ∃ n, Py.int_of_str s = Some n.
Proof.
  intros Hne Hall. unfold Py.int_of_str.
  rewrite strip_id by (eapply Forall_impl; [exact Hall|apply digit_not_space]).
  destruct s as [|c s]; [done|]. simpl in *.
  apply Forall_cons in Hall as [Hc Hall].
  assert (∃ n, Py.digits_value (c :: list_ascii_of_string s) = Some n) as Hv.
  { simpl. rewrite Hc. by apply parse_digits_total. }
  destruct c as [[] [] [] [] [] [] [] []]; try (by vm_compute in Hc); exact Hv.
Qed.

Lemma price_value_of_wf v :
  price_wf v = true → ∃ n, Market.price_value_of v = Ok n.
Proof.
  destruct v as [| |s]; simpl; [done|done|]. intros H%bool_decide_eq_true.
  destruct (int_of_str_digits _ H (re_sub_digits _)) as [n Hn].
  exists n. unfold Market.price_value_of. simpl.
  unfold Seller.price_conversion in *. by rewrite Hn.
Qed.

Lemma int_of_str_empty : Py.int_of_str "" = None.
Proof. reflexivity. Qed.

End price_digits.

(** ** Listed offers that the feed does not name *)



(** ** The list of offer ids after [create_stocks] *)

(** C4, as the code has it. When the offer-id list has no duplicates and
    [create_stocks] returns, the list it was given is left holding the
    offer ids that no feed row names, in their original order, and
    [create_prices] run on that list yields no price update at all. This
    holds for seller.py and for market.py. *)
Theorem create_stocks_consumes_offer_ids (F : list watch) (C : list string) :
  NoDup C →
  (∀ stocks C', Seller.create_stocks F C = (Ok stocks, C') →
     C' = filter (λ id, id ∉ codes F) C ∧ Seller.create_prices F C' = Ok []) ∧
  (∀ warehouse_id date stocks C',
     Market.create_stocks F C warehouse_id date = (Ok stocks, C') →
     C' = filter (λ id, id ∉ codes F) C ∧ Market.create_prices F C' = Ok []).
Proof.
  intros Hnd.
  assert (∀ stocks C', Seller.create_stocks F C = (Ok stocks, C') →
            C' = filter (λ id, id ∉ codes F) C ∧ ∀ w, w ∈ F → code w ∉ C') as Hleft.
  { intros stocks C' Hrun.
    destruct (create_stocks_ok _ _ _ _ Hrun) as (new & Hloop & _ & _).
    destruct (stocks_loop_ok _ _ _ _ _ Hloop) as (_ & _ & _ & _ & Hfilter).
    split; [by apply Hfilter|]. intros w Hw. rewrite (Hfilter Hnd).
    intros [Hout _]%list_elem_of_filter. apply Hout. by apply list_elem_of_fmap_2. }
  split.
  - intros stocks C' Hrun. destruct (Hleft _ _ Hrun) as [-> Hnone].
    split; [done|]. by apply seller_prices_loop_none.
  - intros wh d stocks C' Hrun.
    destruct (market_create_stocks_ok _ _ _ _ _ _ Hrun) as (r0 & Hrun0 & _ & _).
    destruct (Hleft _ _ Hrun0) as [-> Hnone].
    split; [done|]. by apply market_prices_loop_none.
Qed.

Lemma create_stocks_consumes_offer_ids_witness :
  (∀ stocks C', Seller.create_stocks scenario_feed ["A"; "B"; "C"] = (Ok stocks, C') →
     C' = filter (λ id, id ∉ codes scenario_feed) ["A"; "B"; "C"] ∧
     Seller.create_prices scenario_feed C' = Ok []) ∧
  (∀ warehouse_id date stocks C',
     Market.create_stocks scenario_feed ["A"; "B"; "C"] warehouse_id date =
       (Ok stocks, C') →
     C' = filter (λ id, id ∉ codes scenario_feed) ["A"; "B"; "C"] ∧
     Market.create_prices scenario_feed C' = Ok []).
Proof.
  apply (create_stocks_consumes_offer_ids scenario_feed ["A"; "B"; "C"]).
  apply (bool_decide_unpack _). vm_compute. exact I.
Defined.

(** C4, as the claim has it, fails on an offer-id list that holds an id
    twice: one feed row removes one occurrence only, so a row of the feed
    is still listed afterwards and [create_prices] prices it. *)
Lemma create_stocks_consumes_offer_ids_counterexample :
  Seller.create_stocks [row "A" "5" "10.00"] ["A"; "A"] =
    (Ok [Seller.mkStock "A" 5; Seller.mkStock "A" 0], ["A"]) ∧
  filter (λ id, id ∉ codes [row "A" "5" "10.00"]) ["A"; "A"] = [] ∧
  Seller.create_prices [row "A" "5" "10.00"] ["A"] =
    Ok [Seller.mkPrice "UNKNOWN" "RUB" "A" "0" "10"].
Proof. split_and!; vm_compute; reflexivity. Qed.

(** ** The reconciled price updates *)

Section price_runs.

Implicit Types (F : list watch) (C : list string).

Lemma prices_wf_cons C w F :
  prices_wf C (w :: F) ↔
  (code w ∈ C → price_wf (get w "Цена") = true) ∧ prices_wf C F.
Proof. apply Forall_cons. Qed.

Lemma market_prices_loop_total F acc C :
  prices_wf C F → ∃ r, Market.prices_loop F acc C = Ok r.
Proof.
  revert acc. induction F as [|w F IH]; intros acc Hwf; [by eexists|].
  apply prices_wf_cons in Hwf as [Hw Hwf]. simpl.
  destruct (Py.contains (code w) C) eqn:Hc; [|by apply IH].
  apply contains_true in Hc.
  destruct (price_value_of_wf _ (Hw Hc)) as [n ->]. by apply IH.
Qed.

Lemma seller_prices_loop_total F acc C :
  prices_wf C F → ∃ r, Seller.prices_loop F acc C = Ok r.
Proof.
  revert acc. induction F as [|w F IH]; intros acc Hwf; [by eexists|].
  apply prices_wf_cons in Hwf as [Hw Hwf]. simpl.
  destruct (Py.contains (code w) C) eqn:Hc; [|by apply IH].
  apply contains_true in Hc. specialize (Hw Hc).
  destruct (get w "Цена") as [| |s]; simpl in *; [done|done|]. by apply IH.
Qed.

End price_runs.

(** C5, as the code has it. The price updates [create_prices] returns are
    made, in feed order, one from each feed row whose code is listed, and
    the amount of each is the Price Normalizer applied to the row's price
    string: parsed as an integer in market.py, kept as the digit string in
    seller.py when it is not empty. In market.py a listed row whose price
    normalizes to the empty string makes [create_prices] raise. *)
Theorem create_prices_amounts (F : list watch) (C : list string) :
  (∀ prices, Market.create_prices F C = Ok prices →
     Forall2 (market_made C) (filter (λ w, code w ∈ C) F) prices) ∧
  (∀ w s, w ∈ F → code w ∈ C → get w "Цена" = PStr s →
     Seller.price_conversion s = "" →
     ∃ e, Market.create_prices F C = Raise e) ∧
  (∀ prices, Seller.create_prices F C = Ok prices →
     Forall2 (seller_priced C) (filter (λ w, code w ∈ C) F) prices).
Proof.
  assert (∀ prices, Market.create_prices F C = Ok prices →
     Forall2 (market_made C) (filter (λ w, code w ∈ C) F) prices) as Hmarket.
  { intros prices Hrun.
    by destruct (market_prices_loop_ok _ _ _ _ Hrun) as (new & -> & Hall). }
  split_and!.
  - exact Hmarket.
  - intros w s Hw Hc Hp Hempty.
    destruct (Market.create_prices F C) as [prices|e] eqn:Hrun; [|by eexists].
    exfalso. specialize (Hmarket prices eq_refl).
    assert (w ∈ filter (λ w, code w ∈ C) F) as Hwf
      by (by apply list_elem_of_filter).
    apply list_elem_of_lookup in Hwf as [i Hi].
    destruct (Forall2_lookup_l _ _ _ _ _ Hmarket Hi)
      as (p & _ & _ & s' & n & Hp' & Hn & _).
    rewrite Hp in Hp'. injection Hp' as <-. rewrite Hempty in Hn. done.
  - intros prices Hrun.
    destruct (seller_prices_loop_ok _ _ _ _ Hrun) as (new & -> & Hall).
    simpl. eapply Forall2_impl; [exact Hall|].
    intros w p (Hc & s & Hs & ->). split_and!; [done|done|]. by exists s.
Qed.

Lemma create_prices_amounts_witness :
  Forall2 (market_made ["A"; "B"; "C"])
    (filter (λ w, code w ∈ ["A"; "B"; "C"]) scenario_feed)
    [Market.mkPrice "A" (Market.mkValue 100 "RUR");
     Market.mkPrice "B" (Market.mkValue 50 "RUR")] ∧
  (∃ e, Market.create_prices [row "A" "5" "n/a"] ["A"] = Raise e) ∧
  Forall2 (seller_priced ["A"; "B"])
    (filter (λ w, code w ∈ ["A"; "B"])
       [row "A" "5" "n/a"; row "B" "5" "10.00"])
    [Seller.mkPrice "UNKNOWN" "RUB" "A" "0" "";
     Seller.mkPrice "UNKNOWN" "RUB" "B" "0" "10"].
Proof.
  split_and!.
  - apply (proj1 (create_prices_amounts scenario_feed ["A"; "B"; "C"])).
    vm_compute. reflexivity.
  - apply (proj1 (proj2 (create_prices_amounts [row "A" "5" "n/a"] ["A"]))
             (row "A" "5" "n/a") "n/a").
    + apply (bool_decide_unpack _). vm_compute. exact I.
    + apply (bool_decide_unpack _). vm_compute. exact I.
    + vm_compute. reflexivity.
    + vm_compute. reflexivity.
  - apply (proj2 (proj2 (create_prices_amounts
             [row "A" "5" "n/a"; row "B" "5" "10.00"] ["A"; "B"]))).
    vm_compute. reflexivity.
Defined.

(** C5, as the claim has it, fails in seller.py: the amount stays a string,
    and a price without digits is no error there, the update is returned
    with the empty string as its price. *)
Lemma create_prices_amounts_counterexample :
  Seller.price_conversion "n/a" = "" ∧
  Seller.create_prices [row "A" "5" "n/a"] ["A"] =
    Ok [Seller.mkPrice "UNKNOWN" "RUB" "A" "0" ""].
Proof. split; vm_compute; reflexivity. Qed.

(** ** Two runs on the same feed and catalog *)

(** C10, as the code has it. The stock updates of market.py are those of
    seller.py, each dressed with the warehouse id and stamped with the
    clock reading of the run; two runs on the same feed, catalog and
    warehouse leave the same offer ids behind and return the same updates
    up to that stamp. *)
Theorem create_stocks_same_up_to_date (F : list watch) (C : list string) :
  (∀ warehouse_id date,
     Market.create_stocks F C warehouse_id date =
     (outcome_map (fmap (to_market warehouse_id date)) (Seller.create_stocks F C).1,
      (Seller.create_stocks F C).2)) ∧
  (∀ warehouse_id date1 date2,
     outcome_map (fmap erase_date) (Market.create_stocks F C warehouse_id date1).1 =
     outcome_map (fmap erase_date) (Market.create_stocks F C warehouse_id date2).1 ∧
     (Market.create_stocks F C warehouse_id date1).2 =
     (Market.create_stocks F C warehouse_id date2).2).
Proof.
  split; [intros; apply market_create_stocks|].
  intros wh d1 d2. rewrite !market_create_stocks. simpl. split; [|done].
  destruct (Seller.create_stocks F C).1 as [r|e]; simpl; [|done].
  f_equal. rewrite <- !list_fmap_compose. by apply list_fmap_ext.
Qed.

(** C10, as the claim has it, fails in market.py: the same feed, catalog
    and warehouse give different updates at different clock readings. *)
Lemma create_stocks_clock_counterexample :
  (Market.create_stocks [] ["A"] "wh" "2024-01-01T00:00:00Z").1 =
    Ok [Market.entry "A" "wh" 0 "2024-01-01T00:00:00Z"] ∧
  (Market.create_stocks [] ["A"] "wh" "2024-01-01T00:00:01Z").1 =
    Ok [Market.entry "A" "wh" 0 "2024-01-01T00:00:01Z"] ∧
  (Market.create_stocks [] ["A"] "wh" "2024-01-01T00:00:00Z").1 ≠
  (Market.create_stocks [] ["A"] "wh" "2024-01-01T00:00:01Z").1.
Proof. split_and!; [reflexivity|reflexivity|]. vm_compute. discriminate. Qed.

(** ** The batches the runs submit *)

(** C9, as the code has it. seller.py (the target paged by a total count)
    submits stock updates in batches of 100, in [upload_stocks] and in
    [main], and price updates in batches of 1000 in [upload_prices] and of
    900 in [main]; market.py (the target paged by a page token) submits
    stock updates in batches of 2000, in [upload_stocks] and in [main], and
    price updates in batches of 500 in [upload_prices]. *)
Theorem submitted_batch_sizes (F : list watch) (C : list string) :
  (∀ stocks C', Seller.create_stocks F C = (Ok stocks, C') →
     ∃ chunks, batches_of 100 stocks chunks ∧
       (Seller.upload_stocks F C).2 = Seller.update_stocks <$> chunks) ∧
  (∀ prices, Seller.create_prices F C = Ok prices →
     ∃ chunks, batches_of 1000 prices chunks ∧
       (Seller.upload_prices F C).2 = Seller.update_price <$> chunks) ∧
  (∀ stocks C' prices,
     Seller.create_stocks F C = (Ok stocks, C') →
     Seller.create_prices F C' = Ok prices →
     ∃ stock_chunks price_chunks,
       batches_of 100 stocks stock_chunks ∧ batches_of 900 prices price_chunks ∧
       Seller.main F C =
         (Seller.update_stocks <$> stock_chunks) ++
         (Seller.update_price <$> price_chunks)) ∧
  (∀ warehouse_id date stocks C',
     Market.create_stocks F C warehouse_id date = (Ok stocks, C') →
     ∃ chunks, batches_of 2000 stocks chunks ∧
       (Market.upload_stocks F C warehouse_id date).2 =
         Market.update_stocks <$> chunks ∧
       (Market.main_campaign F C warehouse_id date).2 =
         Market.update_stocks <$> chunks) ∧
  (∀ prices, Market.create_prices F C = Ok prices →
     ∃ chunks, batches_of 500 prices chunks ∧
       (Market.upload_prices F C).2 = Market.update_price <$> chunks).
Proof.
  split_and!.
  - intros stocks C' Hrun.
    destruct (divide_batches stocks 100) as (chunks & Hd & Hb); [lia|].
    change (Z.to_nat 100) with 100%nat in Hb.
    exists chunks. split; [done|]. unfold Seller.upload_stocks.
    rewrite Hrun. by rewrite Hd.
  - intros prices Hrun.
    destruct (divide_batches prices 1000) as (chunks & Hd & Hb); [lia|].
    change (Z.to_nat 1000) with 1000%nat in Hb.
    exists chunks. split; [done|]. unfold Seller.upload_prices.
    rewrite Hrun. by rewrite Hd.
  - intros stocks C' prices Hs Hp.
    destruct (divide_batches stocks 100) as (sc & Hds & Hbs); [lia|].
    change (Z.to_nat 100) with 100%nat in Hbs.
    destruct (divide_batches prices 900) as (pc & Hdp & Hbp); [lia|].
    change (Z.to_nat 900) with 900%nat in Hbp.
    exists sc, pc. split_and!; [done|done|]. unfold Seller.main.
    by rewrite Hs, Hds, Hp, Hdp.
  - intros wh d stocks C' Hrun.
    destruct (divide_batches stocks 2000) as (chunks & Hd & Hb); [lia|].
    change (Z.to_nat 2000) with 2000%nat in Hb.
    exists chunks. split; [done|].
    unfold Market.upload_stocks, Market.main_campaign.
    rewrite Hrun. by rewrite Hd.
  - intros prices Hrun.
    destruct (divide_batches prices 500) as (chunks & Hd & Hb); [lia|].
    change (Z.to_nat 500) with 500%nat in Hb.
    exists chunks. split; [done|]. unfold Market.upload_prices.
    rewrite Hrun. by rewrite Hd.
Qed.

Lemma submitted_batch_sizes_witness :
  (∃ chunks,
     batches_of 100
       [Seller.mkStock "A" 100; Seller.mkStock "B" 5; Seller.mkStock "C" 0] chunks ∧
     (Seller.upload_stocks scenario_feed ["A"; "B"; "C"]).2 =
       Seller.update_stocks <$> chunks) ∧
  (∃ chunks,
     batches_of 500
       [Market.mkPrice "A" (Market.mkValue 100 "RUR");
        Market.mkPrice "B" (Market.mkValue 50 "RUR")] chunks ∧
     (Market.upload_prices scenario_feed ["A"; "B"; "C"]).2 =
       Market.update_price <$> chunks).
Proof.
  split.
  - apply (proj1 (submitted_batch_sizes scenario_feed ["A"; "B"; "C"]) _ ["C"]).
    vm_compute. reflexivity.
  - apply (proj2 (proj2 (proj2 (proj2
             (submitted_batch_sizes scenario_feed ["A"; "B"; "C"]))))).
    vm_compute. reflexivity.
Defined.

(** C9, as the claim has it, fails on a catalog of 501 offers that the feed
    all names. seller.py sends the 501 stock updates in five requests of
    100 and one of 1, not in one request, and its 501 price updates in one
    request, not in requests of at most 500; market.py sends the 501 stock
    updates in one request, not in requests of at most 100, and its 501
    price updates in requests of 500 and 1, not in one request. *)
Lemma submitted_batch_sizes_counterexample :
  seller_stock_sizes (Seller.upload_stocks (feed_of 501) (catalog_of 501)).2 =
    [100; 100; 100; 100; 100; 1]%nat ∧
  seller_price_sizes (Seller.upload_prices (feed_of 501) (catalog_of 501)).2 =
    [501]%nat ∧
  market_stock_sizes (Market.upload_stocks (feed_of 501) (catalog_of 501) "wh" "t").2 =
    [501]%nat ∧
  market_price_sizes (Market.upload_prices (feed_of 501) (catalog_of 501)).2 =
    [500; 1]%nat.
Proof. split_and!; vm_compute; reflexivity. Qed.

(** * Further properties of the code *)

(** ** The catalog fetchers *)

Section fetchers.

Import SellerCatalog.

Lemma seller_fetch_loop_pages get c rs T fuel acc :
  seller_pages get c rs →
  Forall (λ r, total r = T) rs →
  T = Z.of_nat (length acc + length (concat (items <$> rs))) →
  (length rs ≤ fuel)%nat →
  fetch_loop get fuel c acc = Some (Ok (acc ++ concat (items <$> rs))).
Proof.
  intros Hp. revert fuel acc.
  induction Hp as [c r Hget|c r rs Hget Hp IH]; intros fuel acc Hall HT Hfuel.
  - destruct fuel as [|fuel]; [simpl in Hfuel; lia|]. cbn [fetch_loop]. rewrite Hget. cbn zeta.
    apply Forall_cons in Hall as [Hr _]. change (concat (items <$> [r])) with (items r ++ []) in HT |- *.
    rewrite app_nil_r in HT |- *.
    destruct (Z.eqb_spec (total r) (Z.of_nat (length (acc ++ items r)))) as [_|Hne];
      [done|].
    destruct Hne. rewrite length_app. lia.
  - destruct fuel as [|fuel]; [simpl in Hfuel; lia|]. cbn [fetch_loop]. rewrite Hget. cbn zeta.
    apply Forall_cons in Hall as [Hr Hall]. simpl in Hfuel.
    change (concat (items <$> r :: rs))
      with (items r ++ concat (items <$> rs)) in HT |- *.
    rewrite length_app in HT.
    destruct (Z.eqb_spec (total r) (Z.of_nat (length (acc ++ items r)))) as [Heq|Hne].
    + rewrite length_app in Heq.
      assert (concat (items <$> rs) = []) as ->
        by (apply length_zero_iff_nil; lia).
      by rewrite !app_nil_r.
    + rewrite (IH fuel (acc ++ items r)); [by rewrite <- app_assoc|done| |lia].
      rewrite length_app. lia.
Qed.

Lemma seller_fetch_loop_sound get fuel c acc :
  (∀ pl, fetch_loop get fuel c acc = Some (Ok pl) →
     ∃ c' r, get c' = Ok r ∧ total r = Z.of_nat (length pl) ∧
       ∃ served, pl = acc ++ served ∧
         ∀ p, p ∈ served → ∃ c'' r', get c'' = Ok r' ∧ p ∈ items r') ∧
  (∀ e, fetch_loop get fuel c acc = Some (Raise e) → ∃ c', get c' = Raise e).
Proof.
  revert c acc. induction fuel as [|fuel IH]; intros c acc; simpl; [done|].
  destruct (get c) as [r|e0] eqn:Hget.
  - destruct (Z.eqb_spec (total r) (Z.of_nat (length (acc ++ items r)))) as [Heq|Hne].
    + split; [|done]. intros pl [= <-]. exists c, r. split_and!; [done|done|].
      exists (items r). split; [done|]. intros p Hp. by exists c, r.
    + destruct (IH (last_id r) (acc ++ items r)) as [IHok IHerr].
      split; [|exact IHerr]. intros pl Hrun.
      destruct (IHok pl Hrun) as (c' & r' & Hg & Ht & served & -> & Hs).
      exists c', r'. split_and!; [done|done|].
      exists (items r ++ served). split; [by rewrite <- app_assoc|].
      intros p [Hp|Hp]%elem_of_app; [by exists c, r|by apply Hs].
  - split; [done|]. intros e [= <-]. by exists c.
Qed.

End fetchers.

(** X1. When the listing endpoint of seller.py serves its pages in a chain
    of cursors that starts at the empty cursor, and every page reports as
    [total] the number of items of all pages together, [get_offer_ids]
    stops after at most as many requests as there are pages and returns
    the offer ids of all items, in the order served. *)
Theorem seller_get_offer_ids_complete
    (get : string → outcome SellerCatalog.Result)
    (rs : list SellerCatalog.Result) (fuel : nat) :
  seller_pages get "" rs →
  Forall (λ r, SellerCatalog.total r =
               Z.of_nat (length (concat (SellerCatalog.items <$> rs)))) rs →
  (length rs ≤ fuel)%nat →
  SellerCatalog.get_offer_ids get fuel =
  Some (Ok (SellerCatalog.offer_id <$> concat (SellerCatalog.items <$> rs))).
Proof.
  intros Hp Hall Hfuel. unfold SellerCatalog.get_offer_ids.
  by rewrite (seller_fetch_loop_pages get "" rs _ fuel [] Hp Hall).
Qed.

Lemma seller_get_offer_ids_complete_witness :
  SellerCatalog.get_offer_ids sample_seller_endpoint 2 = Some (Ok ["A"; "B"; "C"]).
Proof.
  apply (seller_get_offer_ids_complete sample_seller_endpoint
           [SellerCatalog.mkResult
              [SellerCatalog.mkProduct "A"; SellerCatalog.mkProduct "B"] 3 "p2";
            SellerCatalog.mkResult [SellerCatalog.mkProduct "C"] 3 "p3"] 2).
  - apply seller_pages_more; [reflexivity|]. apply seller_pages_last. reflexivity.
  - repeat constructor.
  - simpl. lia.
Defined.

(** X2. Whatever the endpoint does, [get_offer_ids] of seller.py returns
    a list only when its length is the [total] of a page the endpoint
    answered, every id in it is the [offer_id] of an item of an answered
    page, and an exception it raises is one a request raised. *)
Theorem seller_get_offer_ids_sound
    (get : string → outcome SellerCatalog.Result) (fuel : nat) :
  (∀ ids, SellerCatalog.get_offer_ids get fuel = Some (Ok ids) →
     (∃ c r, get c = Ok r ∧ SellerCatalog.total r = Z.of_nat (length ids)) ∧
     ∀ id, id ∈ ids →
       ∃ c r p, get c = Ok r ∧ p ∈ SellerCatalog.items r ∧
         SellerCatalog.offer_id p = id) ∧
  (∀ e, SellerCatalog.get_offer_ids get fuel = Some (Raise e) →
     ∃ c, get c = Raise e).
Proof.
  unfold SellerCatalog.get_offer_ids.
  destruct (seller_fetch_loop_sound get fuel "" []) as [Hok Herr].
  destruct (SellerCatalog.fetch_loop get fuel "" []) as [[pl|e0]|]; simpl.
  - split; [|done]. intros ids [= <-].
    destruct (Hok pl eq_refl) as (c & r & Hg & Ht & served & -> & Hs).
    split.
    + exists c, r. by rewrite length_fmap.
    + intros id (p & -> & Hp)%list_elem_of_fmap. simpl in Hp.
      destruct (Hs p Hp) as (c' & r' & Hg' & Hin). by exists c', r', p.
  - split; [done|]. intros e [= <-]. by apply Herr.
  - done.
Qed.

Lemma seller_get_offer_ids_sound_witness :
  (∃ c r, sample_seller_endpoint c = Ok r ∧ SellerCatalog.total r = 3) ∧
  ∀ id, id ∈ ["A"; "B"; "C"] →
    ∃ c r p, sample_seller_endpoint c = Ok r ∧ p ∈ SellerCatalog.items r ∧
      SellerCatalog.offer_id p = id.
Proof.
  apply (proj1 (seller_get_offer_ids_sound sample_seller_endpoint 5) ["A"; "B"; "C"]).
  vm_compute. reflexivity.
Defined.

(** X3. When every page the endpoint of seller.py answers holds more
    items than the [total] it reports, [get_offer_ids] never stops: the
    loop is still running after any number of requests. *)
Theorem seller_get_offer_ids_overshoot
    (get : string → outcome SellerCatalog.Result) :
  (∀ c, ∃ r, get c = Ok r ∧
     SellerCatalog.total r < Z.of_nat (length (SellerCatalog.items r))) →
  ∀ fuel, SellerCatalog.get_offer_ids get fuel = None.
Proof.
  intros Hget fuel. unfold SellerCatalog.get_offer_ids.
  assert (∀ c acc, SellerCatalog.fetch_loop get fuel c acc = None) as ->; [|done].
  induction fuel as [|fuel IH]; intros c acc; simpl; [done|].
  destruct (Hget c) as (r & -> & Hlt).
  destruct (Z.eqb_spec (SellerCatalog.total r)
              (Z.of_nat (length (acc ++ SellerCatalog.items r)))) as [Heq|_];
    [|apply IH].
  rewrite length_app in Heq. lia.
Qed.

Lemma seller_get_offer_ids_overshoot_witness :
  SellerCatalog.get_offer_ids
    (λ _, Ok (SellerCatalog.mkResult [SellerCatalog.mkProduct "A"] 0 "")) 40 = None.
Proof.
  apply (seller_get_offer_ids_overshoot
           (λ _, Ok (SellerCatalog.mkResult [SellerCatalog.mkProduct "A"] 0 ""))).
  intros c. eexists. split; [reflexivity|]. simpl. lia.
Defined.

Section market_fetcher.

Import MarketCatalog.

Lemma market_fetch_loop_pages get c rs fuel acc :
  market_pages get c rs →
  (length rs ≤ fuel)%nat →
  fetch_loop get fuel c acc =
  Some (Ok (acc ++ concat (offerMappingEntries <$> rs))).
Proof.
  intros Hp. revert fuel acc.
  induction Hp as [c r Hget Hstop|c r t rs Hget Htok Hne Hp IH]; intros fuel acc Hfuel;
    (destruct fuel as [|fuel]; [simpl in Hfuel; lia|]);
    cbn [fetch_loop]; rewrite Hget; cbn zeta.
  - change (concat (offerMappingEntries <$> [r]))
      with (offerMappingEntries r ++ []).
    rewrite app_nil_r. destruct (nextPageToken r) as [t|]; [|done].
    by rewrite Hstop.
  - change (concat (offerMappingEntries <$> r :: rs))
      with (offerMappingEntries r ++ concat (offerMappingEntries <$> rs)).
    rewrite Htok. unfold falsy. rewrite bool_decide_eq_false_2 by done.
    rewrite IH by (simpl in Hfuel; lia). by rewrite <- app_assoc.
Qed.

End market_fetcher.

(** X4. When the listing endpoint of market.py serves its pages in a chain
    of page tokens that starts at the empty token, every page but the
    last carrying a token that is not empty and the last one carrying none
    or an empty one, [get_offer_ids] stops after as many requests as there
    are pages and returns the [shopSku] of all entries, in the order
    served. *)
Theorem market_get_offer_ids_complete
    (get : string → outcome MarketCatalog.Result)
    (rs : list MarketCatalog.Result) (fuel : nat) :
  market_pages get "" rs →
  (length rs ≤ fuel)%nat →
  MarketCatalog.get_offer_ids get fuel =
  Some (Ok (MarketCatalog.shopSku <$>
              concat (MarketCatalog.offerMappingEntries <$> rs))).
Proof.
  intros Hp Hfuel. unfold MarketCatalog.get_offer_ids.
  by rewrite (market_fetch_loop_pages get "" rs fuel [] Hp Hfuel).
Qed.

Lemma market_get_offer_ids_complete_witness :
  MarketCatalog.get_offer_ids sample_market_endpoint 2 = Some (Ok ["A"; "B"; "C"]).
Proof.
  apply (market_get_offer_ids_complete sample_market_endpoint
           [MarketCatalog.mkResult
              [MarketCatalog.mkEntry "A"; MarketCatalog.mkEntry "B"] (Some "p2");
            MarketCatalog.mkResult [MarketCatalog.mkEntry "C"] None] 2).
  - apply (market_pages_more _ _ _ "p2"); [reflexivity|reflexivity|done|].
    apply market_pages_last; reflexivity.
  - simpl. lia.
Defined.

(** X5. When every page the endpoint of market.py answers carries a page
    token that is not empty, [get_offer_ids] never stops: the loop is
    still running after any number of requests. *)
Theorem market_get_offer_ids_endless
    (get : string → outcome MarketCatalog.Result) :
  (∀ c, ∃ r t, get c = Ok r ∧ MarketCatalog.nextPageToken r = Some t ∧ t ≠ "") →
  ∀ fuel, MarketCatalog.get_offer_ids get fuel = None.
Proof.
  intros Hget fuel. unfold MarketCatalog.get_offer_ids.
  assert (∀ c acc, MarketCatalog.fetch_loop get fuel c acc = None) as ->; [|done].
  induction fuel as [|fuel IH]; intros c acc; simpl; [done|].
  destruct (Hget c) as (r & t & -> & -> & Hne).
  rewrite bool_decide_eq_false_2 by done. apply IH.
Qed.

Lemma market_get_offer_ids_endless_witness :
  MarketCatalog.get_offer_ids
    (λ _, Ok (MarketCatalog.mkResult [MarketCatalog.mkEntry "A"] (Some "next")))
    40 = None.
Proof.
  apply (market_get_offer_ids_endless
           (λ _, Ok (MarketCatalog.mkResult [MarketCatalog.mkEntry "A"] (Some "next")))).
  intros c. eexists _, _. split_and!; [reflexivity|reflexivity|done].
Defined.

(** ** More on [create_stocks] *)

Section stocks_more.

Implicit Types (F : list watch) (C : list string) (w : watch).

Lemma remove_first_sublist x (l l' : list string) :
  Py.remove_first x l = Some l' → l' `sublist_of` l.
Proof.
  revert l'. induction l as [|y l IH]; intros l'; simpl; [done|].
  destruct (decide (x = y)) as [->|Hne].
  - intros [= ->]. by apply sublist_cons.
  - destruct (Py.remove_first x l) as [l1|]; [|done]. intros [= <-].
    apply sublist_skip. by apply IH.
Qed.

Lemma stocks_loop_order F acc C r C' :
  Seller.stocks_loop F acc C = (Ok r, C') →
  ∃ new, r = acc ++ new ∧
    (Seller.offer_id <$> new) `sublist_of` codes F ∧ C' `sublist_of` C.
Proof.
  revert acc C. induction F as [|w F IH]; intros acc C Hrun.
  - simpl in Hrun. injection Hrun as <- <-. exists []. by rewrite app_nil_r.
  - destruct (decide (code w ∈ C)) as [Hin|Hout].
    + destruct (stocks_loop_match w F acc C Hin) as (C1 & Hrem & Heq).
      rewrite Heq in Hrun. destruct (Seller.stock_of w) as [n|e]; [|done].
      destruct (IH _ _ Hrun) as (new & -> & Hids & Hleft).
      exists (Seller.mkStock (code w) n :: new). split_and!.
      * by rewrite <- app_assoc.
      * by apply sublist_skip.
      * etrans; [exact Hleft|]. by apply (remove_first_sublist (code w)).
    + rewrite stocks_loop_skip in Hrun by done.
      destruct (IH _ _ Hrun) as (new & -> & Hids & Hleft).
      exists new. split_and!; [done| |done]. by apply sublist_cons.
Qed.


Lemma stocks_loop_none F acc C :
  (∀ w, w ∈ F → code w ∉ C) → Seller.stocks_loop F acc C = (Ok acc, C).
Proof.
  revert acc. induction F as [|w F IH]; intros acc H; [done|].
  rewrite stocks_loop_skip by (apply H; left).
  apply IH. intros w' Hw'. apply H. by right.
Qed.

Lemma stock_of_raises w e :
  Seller.stock_of w = Raise e →
  (e = TypeError ∧ get w "Количество" = PNone) ∨
  (e = ValueError ∧ ∃ s, get w "Количество" = PStr s ∧ Py.int_of_str s = None).
Proof.
  unfold Seller.stock_of.
  destruct (decide (Py.str (get w "Количество") = ">10")); [done|].
  destruct (decide (Py.str (get w "Количество") = "1")); [done|].
  destruct (get w "Количество") as [|z|s]; simpl.
  - intros [= <-]. by left.
  - done.
  - destruct (Py.int_of_str s) eqn:Hs; [done|]. intros [= <-]. right.
    split; [done|]. by exists s.
Qed.

Lemma stocks_loop_raises F acc C e C' :
  Seller.stocks_loop F acc C = (Raise e, C') →
  ∃ F1 w F2 r1, F = F1 ++ w :: F2 ∧
    Seller.stocks_loop F1 acc C = (Ok r1, C') ∧
    code w ∈ C' ∧ Seller.stock_of w = Raise e.
Proof.
  revert acc C. induction F as [|w F IH]; intros acc C Hrun; [done|].
  destruct (decide (code w ∈ C)) as [Hin|Hout].
  - destruct (stocks_loop_match w F acc C Hin) as (C1 & Hrem & Heq).
    rewrite Heq in Hrun. destruct (Seller.stock_of w) as [n|e0] eqn:Hw.
    + destruct (IH _ _ Hrun) as (F1 & w' & F2 & r1 & -> & Hr1 & Hin' & Hw').
      exists (w :: F1), w', F2, r1. split_and!; [done| |done|done].
      destruct (stocks_loop_match w F1 acc C Hin) as (C2 & Hrem2 & ->).
      rewrite Hrem in Hrem2. injection Hrem2 as <-. by rewrite Hw.
    + injection Hrun as <- <-. exists [], w, F, acc. by split_and!.
  - rewrite stocks_loop_skip in Hrun by done.
    destruct (IH _ _ Hrun) as (F1 & w' & F2 & r1 & -> & Hr1 & Hin' & Hw').
    exists (w :: F1), w', F2, r1. split_and!; [done| |done|done].
    by rewrite stocks_loop_skip.
Qed.

End stocks_more.

(** X6. For an offer-id list that may hold an id several times and any
    feed, the offer ids of the updates [create_stocks] returns, when it
    returns, are the given list up to order: every id is updated as many
    times as the list holds it. This holds for seller.py and for
    market.py. *)
Theorem create_stocks_permutation (F : list watch) (C : list string) :
  (∀ stocks C', Seller.create_stocks F C = (Ok stocks, C') →
     Seller.offer_id <$> stocks ≡ₚ C) ∧
  (∀ warehouse_id date stocks C',
     Market.create_stocks F C warehouse_id date = (Ok stocks, C') →
     Market.sku <$> stocks ≡ₚ C).
Proof.
  split.
  - intros r C' Hrun.
    by destruct (create_stocks_ok _ _ _ _ Hrun) as (_ & _ & _ & Hperm).
  - intros wh d r C' Hrun.
    destruct (market_create_stocks_ok _ _ _ _ _ _ Hrun) as (r0 & Hrun0 & _ & ->).
    by destruct (create_stocks_ok _ _ _ _ Hrun0) as (_ & _ & _ & Hperm).
Qed.

Lemma create_stocks_permutation_witness :
  Seller.offer_id <$>
    [Seller.mkStock "A" 5; Seller.mkStock "B" 0; Seller.mkStock "A" 0] ≡ₚ
  ["A"; "B"; "A"].
Proof.
  apply (proj1 (create_stocks_permutation [row "A" "5" "10.00"] ["A"; "B"; "A"])
           _ ["B"; "A"]).
  vm_compute. reflexivity.
Defined.

(** X7. The list [create_stocks] of seller.py returns is laid out in two
    parts: first the updates made from feed rows, their offer ids in feed
    order, then one update with quantity 0 for every offer id left in the
    list, in the order the list had them. *)
Theorem create_stocks_layout (F : list watch) (C : list string)
    (stocks : list Seller.StockItem) (C' : list string) :
  Seller.create_stocks F C = (Ok stocks, C') →
  ∃ matched,
    stocks = matched ++ ((λ id, Seller.mkStock id 0) <$> C') ∧
    (Seller.offer_id <$> matched) `sublist_of` codes F ∧
    C' `sublist_of` C.
Proof.
  intros Hrun. destruct (create_stocks_ok _ _ _ _ Hrun) as (new & Hloop & -> & _).
  destruct (stocks_loop_order _ _ _ _ _ Hloop) as (new' & Heq & Hids & Hleft).
  simpl in Heq. subst new'. by exists new.
Qed.

Lemma create_stocks_layout_witness :
  ∃ matched,
    [Seller.mkStock "B" 5; Seller.mkStock "A" 100; Seller.mkStock "C" 0] =
      matched ++ ((λ id, Seller.mkStock id 0) <$> ["C"]) ∧
    (Seller.offer_id <$> matched) `sublist_of`
      codes [row "B" "5" "50.00"; row "A" ">10" "100.00"] ∧
    ["C"] `sublist_of` ["A"; "B"; "C"].
Proof.
  apply (create_stocks_layout [row "B" "5" "50.00"; row "A" ">10" "100.00"]
           ["A"; "B"; "C"]).
  vm_compute. reflexivity.
Defined.


(** X9. On a feed whose code cells [str] prints and whose quantity cells
    are plain, when [create_stocks] of seller.py raises, it does so at a
    feed row whose code is still listed: the list is left as the rows
    before that row left it, and the exception is a [TypeError] for a row
    without a quantity or a [ValueError] for a quantity string that [int]
    rejects. *)
Theorem create_stocks_failure (F : list watch) (C : list string)
    (e : exn) (C' : list string) :
  feed_plain F →
  Seller.create_stocks F C = (Raise e, C') →
  ∃ F1 w F2 stocks1,
    F = F1 ++ w :: F2 ∧
    Seller.create_stocks F1 C = (Ok stocks1, C') ∧
    code w ∈ C' ∧
    ((e = TypeError ∧ get w "Количество" = PNone) ∨
     (e = ValueError ∧
      ∃ s, get w "Количество" = PStr s ∧ Py.int_of_str s = None)).
Proof.
  intros _. unfold Seller.create_stocks.
  destruct (Seller.stocks_loop F [] C) as [[r|e0] C0] eqn:Hloop; [done|].
  intros [= <- <-].
  destruct (stocks_loop_raises _ _ _ _ _ Hloop)
    as (F1 & w & F2 & r1 & -> & Hr1 & Hin & Hw).
  exists F1, w, F2. rewrite Hr1. eexists. split_and!; [done|done|done|].
  by apply stock_of_raises.
Qed.

Lemma create_stocks_failure_witness :
  ∃ F1 w F2 stocks1,
    [row "A" "5" "10.00"; row "B" "many" "20.00"; row "C" "7" "30.00"] =
      F1 ++ w :: F2 ∧
    Seller.create_stocks F1 ["A"; "B"; "C"] = (Ok stocks1, ["B"; "C"]) ∧
    code w ∈ ["B"; "C"] ∧
    ((ValueError = TypeError ∧ get w "Количество" = PNone) ∨
     (ValueError = ValueError ∧
      ∃ s, get w "Количество" = PStr s ∧ Py.int_of_str s = None)).
Proof.
  apply (create_stocks_failure
           [row "A" "5" "10.00"; row "B" "many" "20.00"; row "C" "7" "30.00"]
           ["A"; "B"; "C"]).
  - apply (bool_decide_unpack _). vm_compute. exact I.
  - vm_compute. reflexivity.
Defined.

(** ** More on [create_prices] and [price_conversion] *)

Section prices_more.

Implicit Types (F : list watch) (C : list string) (w : watch).


Lemma market_prices_loop_returns F acc C r :
  Market.prices_loop F acc C = Ok r → prices_wf C F.
Proof.
  revert acc. induction F as [|w F IH]; intros acc; simpl; [by constructor|].
  destruct (Py.contains (code w) C) eqn:Hc.
  - apply contains_true in Hc. unfold Market.price_value_of.
    destruct (get w "Цена") as [| |s] eqn:Hp; simpl; [done|done|].
    destruct (Py.int_of_str (Seller.price_conversion s)) as [n|] eqn:Hn; [|done].
    intros Hrun. apply prices_wf_cons. split; [|by eapply IH].
    intros _. rewrite Hp. simpl. apply bool_decide_eq_true.
    intros Hempty. by rewrite Hempty in Hn.
  - apply contains_false in Hc. intros Hrun. apply prices_wf_cons.
    split; [done|by eapply IH].
Qed.

Lemma market_prices_loop_exn F acc C e :
  Market.prices_loop F acc C = Raise e → e = AttributeError ∨ e = ValueError.
Proof.
  revert acc. induction F as [|w F IH]; intros acc; simpl; [done|].
  destruct (Py.contains (code w) C); [|apply IH].
  unfold Market.price_value_of.
  destruct (get w "Цена") as [| |s]; simpl; try (intros [= <-]; by left).
  destruct (Py.int_of_str (Seller.price_conversion s)); [apply IH|].
  intros [= <-]. by right.
Qed.

Lemma parse_digits_lower acc us cs n :
  Py.parse_digits acc us cs = Some n → 0 ≤ acc → 0 ≤ n.
Proof.
  revert acc us. induction cs as [|c cs IH]; intros acc us; simpl.
  - destruct us; [done|]. by intros [= <-].
  - destruct (Py.is_digit c) eqn:Hc.
    + intros Hrun Hacc. apply (IH _ _ Hrun). unfold Py.digit_val.
      unfold Py.is_digit in Hc. apply andb_true_iff in Hc as [Hlo _].
      apply N.leb_le in Hlo. lia.
    + destruct (Ascii.eqb c "_"); [|done]. destruct us; [done|]. apply IH.
Qed.

Lemma int_of_str_digit_string s :
  Forall (λ c, Py.is_digit c = true) (list_ascii_of_string s) →
  Py.int_of_str s = Py.digits_value (list_ascii_of_string s).
Proof.
  intros Hall. unfold Py.int_of_str.
  rewrite strip_id by (eapply Forall_impl; [exact Hall|apply digit_not_space]).
  destruct (list_ascii_of_string s) as [|c cs]; [done|].
  apply Forall_cons in Hall as [Hc _].
  destruct c as [[] [] [] [] [] [] [] []]; try (by vm_compute in Hc); reflexivity.
Qed.

Lemma price_amount_nonneg s n :
  Py.int_of_str (Seller.price_conversion s) = Some n → 0 ≤ n.
Proof.
  unfold Seller.price_conversion.
  rewrite int_of_str_digit_string by apply re_sub_digits.
  unfold Py.digits_value.
  destruct (list_ascii_of_string _) as [|c cs]; [done|].
  destruct (Py.is_digit c); [|done]. intros H. by apply (parse_digits_lower _ _ _ _ H).
Qed.

End prices_more.



(** X11. [create_prices] of market.py returns only when every feed row
    whose code is listed has a price string with a digit before its first
    decimal point, and it does return when in addition [str] prints every
    code cell and these price strings have at most 4300 characters. What
    it raises is an [AttributeError] or a [ValueError]. *)
Theorem market_create_prices_returns (F : list watch) (C : list string) :
  ((∃ prices, Market.create_prices F C = Ok prices) → prices_wf C F) ∧
  (prices_wf C F → prices_short C F →
   ∃ prices, Market.create_prices F C = Ok prices) ∧
  (∀ e, Market.create_prices F C = Raise e → e = AttributeError ∨ e = ValueError).
Proof.
  split_and!.
  - intros [prices Hrun]. by apply (market_prices_loop_returns F [] C prices).
  - intros Hwf _. by apply market_prices_loop_total.
  - apply market_prices_loop_exn.
Qed.

Lemma market_create_prices_returns_witness :
  prices_wf ["A"; "B"; "C"] scenario_feed ∧
  ∃ prices, Market.create_prices scenario_feed ["A"; "B"; "C"] = Ok prices.
Proof.
  split.
  - apply (proj1 (market_create_prices_returns scenario_feed ["A"; "B"; "C"])).
    eexists. vm_compute. reflexivity.
  - apply (proj1 (proj2 (market_create_prices_returns scenario_feed ["A"; "B"; "C"]))).
    + apply (bool_decide_unpack _). vm_compute. exact I.
    + apply (bool_decide_unpack _). vm_compute. exact I.
Defined.

(** X12. Every price update [create_prices] of seller.py returns is for a
    listed offer that the feed names, its [price] holds ASCII digits only,
    and its other fields are the constants ["UNKNOWN"], ["RUB"] and
    ["0"]. *)
Theorem seller_create_prices_entries (F : list watch) (C : list string)
    (prices : list Seller.PriceItem) :
  Seller.create_prices F C = Ok prices →
  ∀ p, p ∈ prices →
    Seller.price_offer_id p ∈ C ∧ Seller.price_offer_id p ∈ codes F ∧
    Forall (λ c, Py.is_digit c = true) (list_ascii_of_string (Seller.price p)) ∧
    Seller.auto_action_enabled p = "UNKNOWN" ∧
    Seller.currency_code p = "RUB" ∧ Seller.old_price p = "0".
Proof.
  intros Hrun p Hp.
  destruct (seller_prices_loop_ok _ _ _ _ Hrun) as (new & -> & Hall).
  simpl in Hp. apply list_elem_of_lookup in Hp as [i Hi].
  destruct (Forall2_lookup_r _ _ _ _ _ Hall Hi) as (w & Hw & Hc & s & _ & ->).
  apply list_elem_of_lookup_2, list_elem_of_filter in Hw as [_ Hw]. simpl.
  split_and!; try done.
  - by apply list_elem_of_fmap_2.
  - apply re_sub_digits.
Qed.

Lemma seller_create_prices_entries_witness :
  "B" ∈ ["A"; "B"; "C"] ∧ "B" ∈ codes scenario_feed ∧
  Forall (λ c, Py.is_digit c = true) (list_ascii_of_string "50") ∧
  "UNKNOWN" = "UNKNOWN" ∧ "RUB" = "RUB" ∧ "0" = "0".
Proof.
  apply (seller_create_prices_entries scenario_feed ["A"; "B"; "C"]
           [Seller.mkPrice "UNKNOWN" "RUB" "A" "0" "100";
            Seller.mkPrice "UNKNOWN" "RUB" "B" "0" "50"]
           eq_refl (Seller.mkPrice "UNKNOWN" "RUB" "B" "0" "50")).
  apply list_elem_of_further, list_elem_of_here.
Defined.

(** X13. Every price update [create_prices] of market.py returns is for a
    listed offer that the feed names, its amount is not negative, and its
    currency is ["RUR"]. *)
Theorem market_create_prices_entries (F : list watch) (C : list string)
    (prices : list Market.PriceItem) :
  Market.create_prices F C = Ok prices →
  ∀ p, p ∈ prices →
    Market.id p ∈ C ∧ Market.id p ∈ codes F ∧
    0 ≤ Market.value (Market.price p) ∧
    Market.currencyId (Market.price p) = "RUR".
Proof.
  intros Hrun p Hp.
  destruct (market_prices_loop_ok _ _ _ _ Hrun) as (new & -> & Hall).
  simpl in Hp. apply list_elem_of_lookup in Hp as [i Hi].
  destruct (Forall2_lookup_r _ _ _ _ _ Hall Hi) as (w & Hw & Hc & s & n & _ & Hn & ->).
  apply list_elem_of_lookup_2, list_elem_of_filter in Hw as [_ Hw]. simpl.
  split_and!; try done.
  - by apply list_elem_of_fmap_2.
  - by apply (price_amount_nonneg s).
Qed.

Lemma market_create_prices_entries_witness :
  "B" ∈ ["A"; "B"; "C"] ∧ "B" ∈ codes scenario_feed ∧ 0 ≤ 50 ∧ "RUR" = "RUR".
Proof.
  apply (market_create_prices_entries scenario_feed ["A"; "B"; "C"]
           [Market.mkPrice "A" (Market.mkValue 100 "RUR");
            Market.mkPrice "B" (Market.mkValue 50 "RUR")]
           eq_refl (Market.mkPrice "B" (Market.mkValue 50 "RUR"))).
  apply list_elem_of_further, list_elem_of_here.
Defined.

Section normalizer_more.

Lemma re_sub_non_digit_fixed s :
  Forall (λ c, Py.is_digit c = true) (list_ascii_of_string s) →
  Py.re_sub_non_digit s = s.
Proof.
  induction s as [|c s IH]; simpl; [done|].
  intros [Hc Hs]%Forall_cons. rewrite Hc. f_equal. by apply IH.
Qed.

Lemma head_of_digits s :
  Forall (λ c, Py.is_digit c = true) (list_ascii_of_string s) →
  nth 0 (Py.split "." s) EmptyString = s.
Proof.
  rewrite split_head. induction s as [|c s IH]; simpl; [done|].
  intros [Hc Hs]%Forall_cons.
  destruct (Ascii.eqb_spec c ".") as [->|_]; [by vm_compute in Hc|].
  f_equal. by apply IH.
Qed.

Lemma head_of_append s t :
  nth 0 (Py.split "." (s +:+ "." +:+ t)) EmptyString =
  nth 0 (Py.split "." s) EmptyString.
Proof.
  rewrite !split_head. induction s as [|c s IH]; simpl; [done|].
  destruct (Ascii.eqb c "."); [done|]. f_equal. apply IH.
Qed.

End normalizer_more.

(** X14. The result of [price_conversion] holds ASCII digits only, and
    [price_conversion] leaves such a string as it is: applying it twice is
    applying it once. *)
Theorem price_conversion_idempotent (s : string) :
  Forall (λ c, Py.is_digit c = true)
    (list_ascii_of_string (Seller.price_conversion s)) ∧
  Seller.price_conversion (Seller.price_conversion s) = Seller.price_conversion s.
Proof.
  assert (Forall (λ c, Py.is_digit c = true)
            (list_ascii_of_string (Seller.price_conversion s))) as Hd
    by apply re_sub_digits.
  split; [done|]. unfold Seller.price_conversion at 1.
  rewrite head_of_digits by done. by apply re_sub_non_digit_fixed.
Qed.

(** X15. [price_conversion] reads nothing after a decimal point: putting
    a ['.'] and any text behind a price string does not change the
    result. *)
Theorem price_conversion_cuts_fraction (s t : string) :
  Seller.price_conversion (s +:+ "." +:+ t) = Seller.price_conversion s.
Proof. unfold Seller.price_conversion. by rewrite head_of_append. Qed.

(** ** More on [divide] *)

Section batching_more.

Context {A : Type}.
Implicit Types (lst : list A) (n : Z).

Lemma range_len_ceil (L : nat) n :
  0 < n → Py.range_len 0 (Z.of_nat L) n = (Z.of_nat L + n - 1) / n.
Proof.
  intros Hn. unfold Py.range_len.
  destruct (Z.ltb_spec 0 n) as [_|?]; [|lia].
  destruct (Z.ltb_spec 0 (Z.of_nat L)) as [HL|HL].
  - replace (Z.of_nat L + n - 1) with ((Z.of_nat L - 0 - 1) + 1 * n) by lia.
    rewrite Z.div_add by lia. done.
  - assert (L = 0%nat) as -> by lia. simpl. symmetry. apply Z.div_small. lia.
Qed.

End batching_more.

(** X16. For a chunk size [n > 0], [divide] yields as many chunks as the
    length of the list divided by [n], rounded up. *)
Theorem divide_chunk_count {A} (lst : list A) (n : Z) :
  0 < n →
  ∃ chunks, Seller.divide lst n = Ok chunks ∧
    Z.of_nat (length chunks) = (Z.of_nat (length lst) + n - 1) / n.
Proof.
  intros Hn. eexists. split; [by apply divide_positive|].
  rewrite length_fmap, length_seq, range_len_ceil by done.
  apply Z2Nat.id. apply Z.div_pos; lia.
Qed.

Lemma divide_chunk_count_witness :
  ∃ chunks, Seller.divide [1; 2; 3; 4; 5; 6; 7] 3 = Ok chunks ∧
    Z.of_nat (length chunks) = (Z.of_nat 7 + 3 - 1) / 3.
Proof. apply (divide_chunk_count [1; 2; 3; 4; 5; 6; 7] 3). lia. Defined.

(** X17. For a chunk size [n > 0], the element at index [i] of the list is
    the element at index [i mod n] of chunk number [i / n]. *)
Theorem divide_element {A} (lst : list A) (n : Z) (i : nat) :
  0 < n → (i < length lst)%nat →
  ∃ chunks c, Seller.divide lst n = Ok chunks ∧
    chunks !! (i / Z.to_nat n)%nat = Some c ∧
    c !! (i mod Z.to_nat n)%nat = lst !! i.
Proof.
  intros Hn Hi. set (m := Z.to_nat n). assert (0 < m)%nat by (subst m; lia).
  destruct (range_len_chunks (length lst) n Hn) as [Hc Hk]. fold m in Hc, Hk.
  set (cnt := Z.to_nat (Py.range_len 0 (Z.of_nat (length lst)) n)) in *.
  pose proof (Nat.div_mod_eq i m) as Hdm.
  pose proof (Nat.mod_upper_bound i m ltac:(lia)) as Hmod.
  assert (i / m < cnt)%nat as Hq by nia.
  eexists _, (take m (drop (i / m * m) lst)).
  split; [by apply divide_positive|]. fold m cnt. split.
  - rewrite list_lookup_fmap, lookup_seq_lt by done. done.
  - rewrite lookup_take_lt by done. rewrite lookup_drop. f_equal. lia.
Qed.

Lemma divide_element_witness :
  ∃ chunks c, Seller.divide ["a"; "b"; "c"; "d"; "e"] 2 = Ok chunks ∧
    chunks !! (3 / Z.to_nat 2)%nat = Some c ∧
    c !! (3 mod Z.to_nat 2)%nat = ["a"; "b"; "c"; "d"; "e"] !! 3%nat.
Proof.
  apply (divide_element ["a"; "b"; "c"; "d"; "e"] 2 3); [lia|simpl; lia].
Defined.

(** X18. For a chunk size [n > 0], [divide] yields nothing for an empty
    list and the list itself as the only chunk when it holds at most [n]
    elements. *)
Theorem divide_small {A} (lst : list A) (n : Z) :
  0 < n →
  Seller.divide (@nil A) n = Ok [] ∧
  ((0 < length lst)%nat → Z.of_nat (length lst) ≤ n →
   Seller.divide lst n = Ok [lst]).
Proof.
  intros Hn. split.
  - rewrite divide_positive by done. simpl length.
    by rewrite range_len_ceil, Z.div_small by lia.
  - intros Hpos Hle. rewrite divide_positive by done.
    rewrite range_len_ceil by done.
    replace ((Z.of_nat (length lst) + n - 1) / n) with 1.
    + simpl. rewrite drop_0, take_ge by lia. done.
    + apply Z.div_unique with (r := Z.of_nat (length lst) - 1); lia.
Qed.

Lemma divide_small_witness :
  Seller.divide (@nil Z) 100 = Ok [] ∧
  Seller.divide [1; 2; 3] 100 = Ok [[1; 2; 3]].
Proof.
  split.
  - apply (divide_small [1; 2; 3] 100). lia.
  - apply (divide_small [1; 2; 3] 100); simpl; lia.
Defined.

(** ** More on the runs *)

Section runs_more.

Implicit Types (F : list watch) (C : list string).

Lemma divide_ok {A} (lst : list A) (n : Z) :
  0 < n →
  ∃ chunks, Seller.divide lst n = Ok chunks ∧ concat chunks = lst ∧
    Z.of_nat (length chunks) = (Z.of_nat (length lst) + n - 1) / n.
Proof.
  intros Hn. destruct (divide_batches lst n Hn) as (chunks & Hrun & Hcat & _).
  exists chunks. split_and!; [done|done|].
  rewrite divide_positive in Hrun by done. injection Hrun as <-.
  rewrite length_fmap, length_seq, range_len_ceil by done.
  apply Z2Nat.id. apply Z.div_pos; lia.
Qed.

Lemma sum_lengths {A} (chunks : list (list A)) :
  sum_list (length <$> chunks) = length (concat chunks).
Proof.
  induction chunks as [|c chunks IH]; [done|].
  simpl. rewrite length_app. by rewrite <- IH.
Qed.

Lemma seller_stock_sizes_fmap chunks :
  seller_stock_sizes (Seller.update_stocks <$> chunks) = length <$> chunks.
Proof. induction chunks as [|c chunks IH]; [done|]. simpl. by f_equal. Qed.

Lemma market_stock_sizes_fmap chunks :
  market_stock_sizes (Market.update_stocks <$> chunks) = length <$> chunks.
Proof. induction chunks as [|c chunks IH]; [done|]. simpl. by f_equal. Qed.

Lemma stocks_length F C r C' :
  Seller.create_stocks F C = (Ok r, C') → length r = length C.
Proof.
  intros Hrun. destruct (create_stocks_ok _ _ _ _ Hrun) as (_ & _ & _ & Hperm).
  by rewrite <- (length_fmap Seller.offer_id), Hperm.
Qed.

End runs_more.

(** X19. When [upload_stocks] returns, the number of requests it has sent
    is the number of listed offers divided by the batch size, rounded up:
    100 in seller.py, 2000 in market.py. All its requests are stock
    requests and together they carry one update per listed offer. *)
Theorem upload_stocks_requests (F : list watch) (C : list string) :
  (∀ not_empty stocks sent,
     Seller.upload_stocks F C = (Ok (not_empty, stocks), sent) →
     Z.of_nat (length sent) = (Z.of_nat (length C) + 99) / 100 ∧
     length (seller_stock_sizes sent) = length sent ∧
     sum_list (seller_stock_sizes sent) = length C) ∧
  (∀ warehouse_id date not_empty stocks sent,
     Market.upload_stocks F C warehouse_id date = (Ok (not_empty, stocks), sent) →
     Z.of_nat (length sent) = (Z.of_nat (length C) + 1999) / 2000 ∧
     length (market_stock_sizes sent) = length sent ∧
     sum_list (market_stock_sizes sent) = length C).
Proof.
  split.
  - intros ne stocks sent. unfold Seller.upload_stocks.
    destruct (Seller.create_stocks F C) as [[r|e] C'] eqn:Hrun; [|done].
    pose proof (stocks_length _ _ _ _ Hrun) as Hlen.
    destruct (divide_ok r 100) as (chunks & Hd & Hcat & Hcnt); [lia|].
    rewrite Hd. intros [= _ <- <-].
    rewrite seller_stock_sizes_fmap, !length_fmap, sum_lengths.
    rewrite Hcat, <- Hlen. split_and!; [|done|done].
    rewrite Hcnt. f_equal. lia.
  - intros wh d ne stocks sent. unfold Market.upload_stocks.
    rewrite market_create_stocks.
    destruct (Seller.create_stocks F C) as [[r|e] C'] eqn:Hrun; [|done].
    pose proof (stocks_length _ _ _ _ Hrun) as Hlen.
    cbn [fst snd outcome_map].
    destruct (divide_ok (to_market wh d <$> r) 2000) as (chunks & Hd & Hcat & Hcnt);
      [lia|].
    rewrite Hd. intros [= _ <- <-].
    rewrite market_stock_sizes_fmap, !length_fmap, sum_lengths, Hcat.
    rewrite length_fmap in Hcnt |- *. rewrite <- Hlen. split_and!; [|done|done].
    rewrite Hcnt. f_equal. lia.
Qed.

Lemma upload_stocks_requests_witness :
  Z.of_nat (length (Seller.upload_stocks scenario_feed ["A"; "B"; "C"]).2) =
    (Z.of_nat 3 + 99) / 100 ∧
  length (seller_stock_sizes (Seller.upload_stocks scenario_feed ["A"; "B"; "C"]).2) =
    length (Seller.upload_stocks scenario_feed ["A"; "B"; "C"]).2 ∧
  sum_list (seller_stock_sizes (Seller.upload_stocks scenario_feed ["A"; "B"; "C"]).2) =
    3%nat.
Proof.
  apply (proj1 (upload_stocks_requests scenario_feed ["A"; "B"; "C"])
           [Seller.mkStock "A" 100; Seller.mkStock "B" 5]
           [Seller.mkStock "A" 100; Seller.mkStock "B" 5; Seller.mkStock "C" 0]).
  vm_compute. reflexivity.
Defined.

(** X20. [main] of seller.py hands [create_prices] the list that
    [create_stocks] has used up. When the offer-id list has no duplicates,
    every request of the run is therefore a stock request: no price
    update is ever sent. *)
Theorem seller_main_sends_no_price (F : list watch) (C : list string) :
  NoDup C → Forall seller_is_stock_call (Seller.main F C).
Proof.
  intros Hnd. unfold Seller.main.
  destruct (Seller.create_stocks F C) as [[stocks|e] C'] eqn:Hrun; [|constructor].
  destruct (divide_ok stocks 100) as (chunks & -> & _); [lia|].
  assert (Forall seller_is_stock_call (Seller.update_stocks <$> chunks)) as Hsent
    by (apply Forall_fmap, Forall_true; done).
  destruct (create_stocks_ok _ _ _ _ Hrun) as (new & Hloop & _ & _).
  destruct (stocks_loop_ok _ _ _ _ _ Hloop) as (_ & _ & _ & _ & Hfilter).
  assert (Seller.create_prices F C' = Ok []) as ->.
  { apply seller_prices_loop_none. intros w Hw. rewrite (Hfilter Hnd).
    intros [Hout _]%list_elem_of_filter. apply Hout. by apply list_elem_of_fmap_2. }
  change (Seller.divide [] 900) with (@Ok (list (list Seller.PriceItem)) []).
  simpl. by rewrite app_nil_r.
Qed.

Lemma seller_main_sends_no_price_witness :
  Forall seller_is_stock_call (Seller.main scenario_feed ["A"; "B"; "C"]).
Proof.
  apply (seller_main_sends_no_price scenario_feed ["A"; "B"; "C"]).
  apply (bool_decide_unpack _). vm_compute. exact I.
Defined.

(** X21. The quantity rule treats a numeric cell like the string that
    spells the number: a row gets the same quantity, or fails the same
    way, whether its quantity cell holds the integer [z] or the text of
    [z]. *)
Theorem stock_of_numeric_cell (w : watch) (z : Z) :
  Seller.stock_of (<["Количество" := PInt z]> w) =
  Seller.stock_of (<["Количество" := PStr (Py.str_of_int z)]> w) ∧
  Market.stock_of (<["Количество" := PInt z]> w) =
  Market.stock_of (<["Количество" := PStr (Py.str_of_int z)]> w).
Proof.
  assert (Seller.stock_of (<["Количество" := PInt z]> w) =
          Seller.stock_of (<["Количество" := PStr (Py.str_of_int z)]> w)) as H.
  { unfold Seller.stock_of, get. rewrite !lookup_insert_eq. simpl.
    destruct (decide (Py.str_of_int z = ">10")); [done|].
    destruct (decide (Py.str_of_int z = "1")); [done|].
    by rewrite int_of_str_of_int. }
  split; [exact H|exact H].
Qed.

(** X22. Every update [upload_stocks] of seller.py reports as not empty is
    one of the updates it submitted, carries a quantity other than 0, and
    is for an offer that a feed row names. *)
Theorem upload_stocks_not_empty (F : list watch) (C : list string)
    (not_empty stocks : list Seller.StockItem) (sent : list Seller.api_call) :
  Seller.upload_stocks F C = (Ok (not_empty, stocks), sent) →
  ∀ u, u ∈ not_empty →
    u ∈ stocks ∧ Seller.stock u ≠ 0 ∧ Seller.offer_id u ∈ codes F.
Proof.
  unfold Seller.upload_stocks.
  destruct (Seller.create_stocks F C) as [[r|e] C'] eqn:Hrun; [|done].
  destruct (Seller.divide r 100) as [chunks|e]; [|done].
  intros [= <- <- _] u [Hnz Hu]%list_elem_of_filter. split_and!; [done|done|].
  destruct (create_stocks_ok _ _ _ _ Hrun) as (new & Hloop & -> & _).
  destruct (stocks_loop_ok _ _ _ _ _ Hloop) as (new' & Heq & _ & Hcodes & _).
  simpl in Heq. subst new'.
  apply elem_of_app in Hu as [Hu|Hu]; [by apply Hcodes|].
  apply list_elem_of_fmap in Hu as (id & -> & _). done.
Qed.

Lemma upload_stocks_not_empty_witness :
  Seller.mkStock "B" 5 ∈
    [Seller.mkStock "A" 100; Seller.mkStock "B" 5; Seller.mkStock "C" 0] ∧
  5 ≠ 0 ∧ "B" ∈ codes scenario_feed.
Proof.
  apply (upload_stocks_not_empty scenario_feed ["A"; "B"; "C"]
           [Seller.mkStock "A" 100; Seller.mkStock "B" 5]
           [Seller.mkStock "A" 100; Seller.mkStock "B" 5; Seller.mkStock "C" 0]
           (Seller.upload_stocks scenario_feed ["A"; "B"; "C"]).2
           eq_refl (Seller.mkStock "B" 5)).
  apply list_elem_of_further, list_elem_of_here.
Defined.

(** X23. A second call of [create_stocks] on the list a first call has
    used up finds no feed row listed any more: when the list had no
    duplicates, it returns one update with quantity 0 for every offer id
    left and leaves the list as it is. *)
Theorem create_stocks_second_call (F : list watch) (C : list string)
    (stocks : list Seller.StockItem) (C' : list string) :
  NoDup C → Seller.create_stocks F C = (Ok stocks, C') →
  Seller.create_stocks F C' = (Ok ((λ id, Seller.mkStock id 0) <$> C'), C').
Proof.
  intros Hnd Hrun.
  destruct (create_stocks_ok _ _ _ _ Hrun) as (new & Hloop & _ & _).
  destruct (stocks_loop_ok _ _ _ _ _ Hloop) as (_ & _ & _ & _ & Hfilter).
  unfold Seller.create_stocks. rewrite stocks_loop_none; [done|].
  intros w Hw. rewrite (Hfilter Hnd).
  intros [Hout _]%list_elem_of_filter. apply Hout. by apply list_elem_of_fmap_2.
Qed.

Lemma create_stocks_second_call_witness :
  Seller.create_stocks scenario_feed ["C"] = (Ok [Seller.mkStock "C" 0], ["C"]).
Proof.
  apply (create_stocks_second_call scenario_feed ["A"; "B"; "C"]
           [Seller.mkStock "A" 100; Seller.mkStock "B" 5; Seller.mkStock "C" 0]).
  - apply (bool_decide_unpack _). vm_compute. exact I.
  - vm_compute. reflexivity.
Defined.

(** X24. [create_stocks] returns on every feed whose code cells [str]
    prints and whose rows that name a listed offer carry a plain quantity
    cell that is one of the two tokens or that [int] converts. This holds
    for seller.py and for market.py. *)
Theorem create_stocks_returns (F : list watch) (C : list string) :
  feed_wf C F →
  (∃ stocks C', Seller.create_stocks F C = (Ok stocks, C')) ∧
  (∀ warehouse_id date,
     ∃ stocks C', Market.create_stocks F C warehouse_id date = (Ok stocks, C')).
Proof.
  intros Hwf. destruct (create_stocks_total F C Hwf) as (r & C' & Hrun).
  split; [by exists r, C'|]. intros wh d.
  rewrite market_create_stocks, Hrun. by eexists _, _.
Qed.

Lemma create_stocks_returns_witness :
  (∃ stocks C', Seller.create_stocks scenario_feed ["A"; "B"; "C"] = (Ok stocks, C')) ∧
  (∀ warehouse_id date,
     ∃ stocks C',
       Market.create_stocks scenario_feed ["A"; "B"; "C"] warehouse_id date =
         (Ok stocks, C')).
Proof.
  apply (create_stocks_returns scenario_feed ["A"; "B"; "C"]).
  apply (bool_decide_unpack _). vm_compute. exact I.
Defined.
